(** * The storefront client: session, remote store client and cart cache

    A shallow embedding of the Angular client of the capstone storefront:
    [AuthService] (session state), [ApiService] (remote store client),
    [CartService] (cart state cache) and the view components that issue
    commands through them.

    The client is single threaded and event driven.  A command runs to
    completion; an HTTP exchange is split in two: the request is sent
    when the observable is subscribed, and the subscriber's [next] or
    [error] handler runs later, when the response is delivered.  The
    embedding keeps the requests in flight in the state together with the
    subscriber that waits for them, and logs every observable effect
    (requests, emissions, notifications, navigation, console output) in a
    trace. *)

From Stdlib Require Import ZArith QArith List Lia DecimalString.
From stdpp Require Import gmap strings.

Open Scope Z_scope.

(** ** Data model (api.service.ts, auth.service.ts)

    [number] fields that hold counts and identifiers are integers;
    [number] fields that hold money are rationals. *)

Inductive Role := RoleAdmin | RoleUser.

Definition role_string (r : Role) : string :=
  match r with RoleAdmin => "admin" | RoleUser => "user" end.

Module User.
Record t := mk {
  id : string;
  username : string;
  role : Role;
  token : option string
}.
End User.

Module Product.
Record t := mk {
  id : Z;
  name : string;
  description : string;
  price : Q;
  stock : Z;
  category : string;
  image_url : string
}.
End Product.

Module CartItem.
Record t := mk {
  cart_id : Z;
  product_id : Z;
  product_name : string;
  product_price : Q;
  product_image : string;
  quantity : Z;
  subtotal : Q;
  available_stock : Z
}.
End CartItem.

Module Cart.
Record t := mk {
  user_id : string;
  items : list CartItem.t;
  total_amount : Q;
  item_count : Z
}.
End Cart.

Module OrderItem.
Record t := mk {
  id : Z;
  order_id : Z;
  product_id : Z;
  product_name : string;
  price : Q;
  quantity : Z;
  subtotal : Q
}.
End OrderItem.

Module Order.
Record t := mk {
  id : Z;
  user_id : string;
  total_amount : Q;
  status : string;
  created_at : string;
  updated_at : string;
  items : list OrderItem.t
}.
End Order.

(** Template literals print a number in decimal. *)
Definition show_Z (z : Z) : string := NilZero.string_of_int (Z.to_int z).

(** A string is truthy when it is not empty; an absent optional argument
    is falsy. *)
Definition truthy (s : string) : bool :=
  match s with EmptyString => false | _ => true end.

Definition truthy_opt (o : option string) : bool :=
  match o with Some s => truthy s | None => false end.

(** [a || b] on strings. *)
Definition or_else (a : option string) (b : string) : string :=
  match a with
  | Some s => if truthy s then s else b
  | None => b
  end.

(** ** HTTP vocabulary *)

Inductive Method := GET | POST | PUT | DELETE.

#[warnings="-register-all"]
Inductive Json :=
  | JNum (z : Z)
  | JStr (s : string)
  | JObj (fields : list (string * Json)).

Record HttpRequest := mkRequest {
  method : Method;
  url : string;
  headers : list (string * string);
  body : option Json
}.

(** The first header of the given name. *)
Fixpoint header_get (name : string) (hs : list (string * string)) : option string :=
  match hs with
  | [] => None
  | (k, v) :: rest => if String.eqb k name then Some v else header_get name rest
  end.

(** The body of a failed response as the handlers read it: [error.error]
    is the parsed body, [error.error.error] its message field. *)
Module ErrorBody.
Record t := mk { error : option string }.
End ErrorBody.

Module HttpErrorResponse.
Record t := mk {
  status : Z;
  error : option ErrorBody.t
}.
End HttpErrorResponse.

(** What a 2xx response carries.  The login response has a [user] field;
    the cart endpoint returns a [Cart]; the mutating endpoints return a
    value that no subscriber reads. *)
Inductive Payload :=
  | PCart (c : Cart.t)
  | PLogin (u : User.t)
  | PAny (j : Json).

Inductive HttpResult :=
  | Ok (p : Payload)
  | Err (e : HttpErrorResponse.t).

(** ** Subscribers

    The arrow functions handed to [subscribe], one constructor per place
    in the source. *)

(** Subscribers the components hand to the observables of [CartService]. *)
Inductive Observer :=
  | ProductList_addToCart_observer (product : Product.t)
  | Cart_updateQuantity_observer (item : CartItem.t)
  | Cart_removeItem_observer (item : CartItem.t)
  | Cart_clearCart_observer.

(** Subscribers handed to the observables of [HttpClient]. *)
Inductive Callback :=
  | CartService_loadCart_subscriber
  | CartService_addToCart_subscriber (observer : Observer)
  | CartService_updateCartItem_subscriber (observer : Observer)
  | CartService_removeFromCart_subscriber (observer : Observer)
  | CartService_clearCart_subscriber (observer : Observer)
  | Login_onSubmit_subscriber
  | Checkout_onSubmit_subscriber.

(** Subscribers of [cart$] and of [currentUser$]. *)
Inductive CartSubscriber :=
  | UserLayout_cart_subscriber
  | CartComponent_cart_subscriber
  | Checkout_cart_subscriber.

Inductive UserSubscriber :=
  | UserLayout_user_subscriber.

(** ** Observable effects *)

Inductive Event :=
  | HttpSent (id : nat) (req : HttpRequest)
  | CartEmitted (c : Cart.t)
  | UserEmitted (u : option User.t)
  | ObserverNext (o : Observer) (p : Payload)
  | ObserverComplete (o : Observer)
  | ObserverError (o : Observer) (e : HttpErrorResponse.t)
  | SnackBarOpen (message action : string) (duration : Z)
  | Navigate (path : string)
  | ConsoleError (message : string) (e : HttpErrorResponse.t)
  | ConsoleLog (message : string).

(** ** The state of the client *)

Record State := mkState {
  (* localStorage; the identity is kept as the record that
     JSON.stringify / JSON.parse carry through the stored string *)
  localStorage : gmap string User.t;
  (* AuthService *)
  currentUserSubject : option User.t;
  user_subscribers : list UserSubscriber;
  (* CartService *)
  cartSubject : Cart.t;
  cart_subscribers : list CartSubscriber;
  (* HttpClient: requests in flight, newest first *)
  pending : list (nat * (HttpRequest * Callback));
  next_request : nat;
  (* UserLayoutComponent *)
  layout_currentUser : option User.t;
  layout_cartItemCount : Z;
  (* CartComponent *)
  cart_cart : Cart.t;
  cart_loading : bool;
  cart_updating : gmap Z bool;
  (* CheckoutComponent *)
  checkout_cart : Cart.t;
  checkout_processing : bool;
  (* LoginComponent *)
  login_loading : bool;
  (* everything observable, oldest first *)
  trace : list Event
}.

Definition empty_cart : Cart.t :=
  {| Cart.user_id := ""; Cart.items := []; Cart.total_amount := 0; Cart.item_count := 0 |}.

(** State setters. *)
Definition set_localStorage (f : gmap string User.t → gmap string User.t) (s : State) : State :=
  mkState (f (localStorage s)) (currentUserSubject s) (user_subscribers s)
    (cartSubject s) (cart_subscribers s) (pending s) (next_request s)
    (layout_currentUser s) (layout_cartItemCount s)
    (cart_cart s) (cart_loading s) (cart_updating s)
    (checkout_cart s) (checkout_processing s) (login_loading s) (trace s).

Definition set_currentUserSubject (u : option User.t) (s : State) : State :=
  mkState (localStorage s) u (user_subscribers s)
    (cartSubject s) (cart_subscribers s) (pending s) (next_request s)
    (layout_currentUser s) (layout_cartItemCount s)
    (cart_cart s) (cart_loading s) (cart_updating s)
    (checkout_cart s) (checkout_processing s) (login_loading s) (trace s).

Definition set_user_subscribers (l : list UserSubscriber) (s : State) : State :=
  mkState (localStorage s) (currentUserSubject s) l
    (cartSubject s) (cart_subscribers s) (pending s) (next_request s)
    (layout_currentUser s) (layout_cartItemCount s)
    (cart_cart s) (cart_loading s) (cart_updating s)
    (checkout_cart s) (checkout_processing s) (login_loading s) (trace s).

Definition set_cartSubject (c : Cart.t) (s : State) : State :=
  mkState (localStorage s) (currentUserSubject s) (user_subscribers s)
    c (cart_subscribers s) (pending s) (next_request s)
    (layout_currentUser s) (layout_cartItemCount s)
    (cart_cart s) (cart_loading s) (cart_updating s)
    (checkout_cart s) (checkout_processing s) (login_loading s) (trace s).

Definition set_cart_subscribers (l : list CartSubscriber) (s : State) : State :=
  mkState (localStorage s) (currentUserSubject s) (user_subscribers s)
    (cartSubject s) l (pending s) (next_request s)
    (layout_currentUser s) (layout_cartItemCount s)
    (cart_cart s) (cart_loading s) (cart_updating s)
    (checkout_cart s) (checkout_processing s) (login_loading s) (trace s).

Definition set_pending (p : list (nat * (HttpRequest * Callback))) (n : nat) (s : State) : State :=
  mkState (localStorage s) (currentUserSubject s) (user_subscribers s)
    (cartSubject s) (cart_subscribers s) p n
    (layout_currentUser s) (layout_cartItemCount s)
    (cart_cart s) (cart_loading s) (cart_updating s)
    (checkout_cart s) (checkout_processing s) (login_loading s) (trace s).

Definition set_layout_currentUser (u : option User.t) (s : State) : State :=
  mkState (localStorage s) (currentUserSubject s) (user_subscribers s)
    (cartSubject s) (cart_subscribers s) (pending s) (next_request s)
    u (layout_cartItemCount s)
    (cart_cart s) (cart_loading s) (cart_updating s)
    (checkout_cart s) (checkout_processing s) (login_loading s) (trace s).

Definition set_layout_cartItemCount (n : Z) (s : State) : State :=
  mkState (localStorage s) (currentUserSubject s) (user_subscribers s)
    (cartSubject s) (cart_subscribers s) (pending s) (next_request s)
    (layout_currentUser s) n
    (cart_cart s) (cart_loading s) (cart_updating s)
    (checkout_cart s) (checkout_processing s) (login_loading s) (trace s).

Definition set_cart_cart (c : Cart.t) (s : State) : State :=
  mkState (localStorage s) (currentUserSubject s) (user_subscribers s)
    (cartSubject s) (cart_subscribers s) (pending s) (next_request s)
    (layout_currentUser s) (layout_cartItemCount s)
    c (cart_loading s) (cart_updating s)
    (checkout_cart s) (checkout_processing s) (login_loading s) (trace s).

Definition set_cart_loading (b : bool) (s : State) : State :=
  mkState (localStorage s) (currentUserSubject s) (user_subscribers s)
    (cartSubject s) (cart_subscribers s) (pending s) (next_request s)
    (layout_currentUser s) (layout_cartItemCount s)
    (cart_cart s) b (cart_updating s)
    (checkout_cart s) (checkout_processing s) (login_loading s) (trace s).

Definition set_cart_updating (k : Z) (b : bool) (s : State) : State :=
  mkState (localStorage s) (currentUserSubject s) (user_subscribers s)
    (cartSubject s) (cart_subscribers s) (pending s) (next_request s)
    (layout_currentUser s) (layout_cartItemCount s)
    (cart_cart s) (cart_loading s) (<[k := b]> (cart_updating s))
    (checkout_cart s) (checkout_processing s) (login_loading s) (trace s).

Definition set_checkout_cart (c : Cart.t) (s : State) : State :=
  mkState (localStorage s) (currentUserSubject s) (user_subscribers s)
    (cartSubject s) (cart_subscribers s) (pending s) (next_request s)
    (layout_currentUser s) (layout_cartItemCount s)
    (cart_cart s) (cart_loading s) (cart_updating s)
    c (checkout_processing s) (login_loading s) (trace s).

Definition set_checkout_processing (b : bool) (s : State) : State :=
  mkState (localStorage s) (currentUserSubject s) (user_subscribers s)
    (cartSubject s) (cart_subscribers s) (pending s) (next_request s)
    (layout_currentUser s) (layout_cartItemCount s)
    (cart_cart s) (cart_loading s) (cart_updating s)
    (checkout_cart s) b (login_loading s) (trace s).

Definition set_login_loading (b : bool) (s : State) : State :=
  mkState (localStorage s) (currentUserSubject s) (user_subscribers s)
    (cartSubject s) (cart_subscribers s) (pending s) (next_request s)
    (layout_currentUser s) (layout_cartItemCount s)
    (cart_cart s) (cart_loading s) (cart_updating s)
    (checkout_cart s) (checkout_processing s) b (trace s).

(** Append an effect to the trace. *)
Definition emit (e : Event) (s : State) : State :=
  mkState (localStorage s) (currentUserSubject s) (user_subscribers s)
    (cartSubject s) (cart_subscribers s) (pending s) (next_request s)
    (layout_currentUser s) (layout_cartItemCount s)
    (cart_cart s) (cart_loading s) (cart_updating s)
    (checkout_cart s) (checkout_processing s) (login_loading s) (trace s ++ [e]).

(** [snackBar.open(message, action, { duration })]. *)
Definition snackBar_open (message action : string) (duration : Z) : State → State :=
  emit (SnackBarOpen message action duration).

(** [router.navigate([path])]. *)
Definition router_navigate (path : string) : State → State :=
  emit (Navigate path).

(** Subscribing to an [HttpClient] observable sends the request; the
    subscriber waits for the response. *)
Definition http_subscribe (req : HttpRequest) (k : Callback) (s : State) : State :=
  let n := next_request s in
  emit (HttpSent n req) (set_pending ((n, (req, k)) :: pending s) (S n) s).

(** ** AuthService (auth.service.ts) *)

Definition storage_key : string := "currentUser".

(** [currentUserSubject.next(u)]: store the value, then run the
    subscribers of [currentUser$] in subscription order. *)
Definition user_notify (sub : UserSubscriber) (u : option User.t) (s : State) : State :=
  match sub with
  | UserLayout_user_subscriber => set_layout_currentUser u s
  end.

Definition currentUserSubject_next (u : option User.t) (s : State) : State :=
  let s1 := emit (UserEmitted u) (set_currentUserSubject u s) in
  fold_left (fun acc sub => user_notify sub u acc) (user_subscribers s1) s1.

(** The constructor reads the stored identity, if any. *)
Definition AuthService_constructor (s : State) : State :=
  match localStorage s !! storage_key with
  | Some storedUser => currentUserSubject_next (Some storedUser) s
  | None => s
  end.

Definition AuthService_getCurrentUser (s : State) : option User.t :=
  currentUserSubject s.

Definition AuthService_isLoggedIn (s : State) : bool :=
  match currentUserSubject s with Some _ => true | None => false end.

Definition AuthService_isAdmin (s : State) : bool :=
  match currentUserSubject s with
  | Some u => match User.role u with RoleAdmin => true | RoleUser => false end
  | None => false
  end.

Definition AuthService_login (u : User.t) (s : State) : State :=
  let s1 := set_localStorage (insert storage_key u) s in
  let s2 := currentUserSubject_next (Some u) s1 in
  match User.role u with
  | RoleAdmin => router_navigate "/admin" s2
  | RoleUser => router_navigate "/user" s2
  end.

Definition AuthService_logout (s : State) : State :=
  let s1 := set_localStorage (delete storage_key) s in
  let s2 := currentUserSubject_next None s1 in
  router_navigate "/login" s2.

(** ** ApiService (api.service.ts) *)

Definition baseUrl : string := "http://localhost:5000/api".

Definition ApiService_getHeaders (s : State) : list (string * string) :=
  let u := AuthService_getCurrentUser s in
  [ ("Content-Type", "application/json");
    ("X-User-ID", or_else (User.id <$> u) "user1");
    ("X-User-Role", or_else ((fun x => role_string (User.role x)) <$> u) "user") ].

(* Authentication *)
Definition ApiService_login (username password : string) (s : State) : HttpRequest :=
  mkRequest POST (baseUrl +:+ "/auth/login") []
    (Some (JObj [("username", JStr username); ("password", JStr password)])).

Definition ApiService_register (username password role : string) (s : State) : HttpRequest :=
  mkRequest POST (baseUrl +:+ "/auth/register") []
    (Some (JObj [("username", JStr username); ("password", JStr password); ("role", JStr role)])).

Definition ApiService_getUsers (s : State) : HttpRequest :=
  mkRequest GET (baseUrl +:+ "/auth/users") [] None.

(* Products *)
Definition ApiService_getProducts (category search : option string) (s : State) : HttpRequest :=
  let params := "" in
  let params :=
    if truthy_opt category then params +:+ "category=" +:+ default "" category +:+ "&" else params in
  let params :=
    if truthy_opt search then params +:+ "search=" +:+ default "" search +:+ "&" else params in
  mkRequest GET (baseUrl +:+ "/products?" +:+ params) (ApiService_getHeaders s) None.

Definition ApiService_getProduct (id : Z) (s : State) : HttpRequest :=
  mkRequest GET (baseUrl +:+ "/products/" +:+ show_Z id) (ApiService_getHeaders s) None.

Definition ApiService_createProduct (product : Json) (s : State) : HttpRequest :=
  mkRequest POST (baseUrl +:+ "/products") (ApiService_getHeaders s) (Some product).

Definition ApiService_updateProduct (id : Z) (product : Json) (s : State) : HttpRequest :=
  mkRequest PUT (baseUrl +:+ "/products/" +:+ show_Z id) (ApiService_getHeaders s) (Some product).

Definition ApiService_deleteProduct (id : Z) (s : State) : HttpRequest :=
  mkRequest DELETE (baseUrl +:+ "/products/" +:+ show_Z id) (ApiService_getHeaders s) None.

(* Cart *)
Definition ApiService_getCart (s : State) : HttpRequest :=
  mkRequest GET (baseUrl +:+ "/cart") (ApiService_getHeaders s) None.

Definition ApiService_addToCart (productId quantity : Z) (s : State) : HttpRequest :=
  mkRequest POST (baseUrl +:+ "/cart/add") (ApiService_getHeaders s)
    (Some (JObj [("product_id", JNum productId); ("quantity", JNum quantity)])).

Definition ApiService_updateCartItem (productId quantity : Z) (s : State) : HttpRequest :=
  mkRequest PUT (baseUrl +:+ "/cart/update") (ApiService_getHeaders s)
    (Some (JObj [("product_id", JNum productId); ("quantity", JNum quantity)])).

Definition ApiService_removeFromCart (productId : Z) (s : State) : HttpRequest :=
  mkRequest DELETE (baseUrl +:+ "/cart/remove") (ApiService_getHeaders s)
    (Some (JObj [("product_id", JNum productId)])).

Definition ApiService_clearCart (s : State) : HttpRequest :=
  mkRequest DELETE (baseUrl +:+ "/cart/clear") (ApiService_getHeaders s) None.

(* Orders *)
Definition ApiService_checkout (s : State) : HttpRequest :=
  mkRequest POST (baseUrl +:+ "/orders/checkout") (ApiService_getHeaders s) (Some (JObj [])).

Definition ApiService_getOrderHistory (s : State) : HttpRequest :=
  mkRequest GET (baseUrl +:+ "/orders/history") (ApiService_getHeaders s) None.

Definition ApiService_getOrder (id : Z) (s : State) : HttpRequest :=
  mkRequest GET (baseUrl +:+ "/orders/" +:+ show_Z id) (ApiService_getHeaders s) None.

(* Admin *)
Definition ApiService_getAllOrders (status : option string) (s : State) : HttpRequest :=
  let params := if truthy_opt status then "?status=" +:+ default "" status else "" in
  mkRequest GET (baseUrl +:+ "/admin/orders" +:+ params) (ApiService_getHeaders s) None.

Definition ApiService_updateOrderStatus (orderId : Z) (status : string) (s : State) : HttpRequest :=
  mkRequest PUT (baseUrl +:+ "/admin/orders/" +:+ show_Z orderId +:+ "/status")
    (ApiService_getHeaders s) (Some (JObj [("status", JStr status)])).

Definition ApiService_getDashboardData (s : State) : HttpRequest :=
  mkRequest GET (baseUrl +:+ "/admin/dashboard") (ApiService_getHeaders s) None.

(** The operations of the service, with their arguments. *)
Inductive ApiCall :=
  | Call_login (username password : string)
  | Call_register (username password role : string)
  | Call_getUsers
  | Call_getProducts (category search : option string)
  | Call_getProduct (id : Z)
  | Call_createProduct (product : Json)
  | Call_updateProduct (id : Z) (product : Json)
  | Call_deleteProduct (id : Z)
  | Call_getCart
  | Call_addToCart (productId quantity : Z)
  | Call_updateCartItem (productId quantity : Z)
  | Call_removeFromCart (productId : Z)
  | Call_clearCart
  | Call_checkout
  | Call_getOrderHistory
  | Call_getOrder (id : Z)
  | Call_getAllOrders (status : option string)
  | Call_updateOrderStatus (orderId : Z) (status : string)
  | Call_getDashboardData.

Definition ApiService_request (c : ApiCall) : State → HttpRequest :=
  match c with
  | Call_login u p => ApiService_login u p
  | Call_register u p r => ApiService_register u p r
  | Call_getUsers => ApiService_getUsers
  | Call_getProducts c s => ApiService_getProducts c s
  | Call_getProduct i => ApiService_getProduct i
  | Call_createProduct p => ApiService_createProduct p
  | Call_updateProduct i p => ApiService_updateProduct i p
  | Call_deleteProduct i => ApiService_deleteProduct i
  | Call_getCart => ApiService_getCart
  | Call_addToCart p q => ApiService_addToCart p q
  | Call_updateCartItem p q => ApiService_updateCartItem p q
  | Call_removeFromCart p => ApiService_removeFromCart p
  | Call_clearCart => ApiService_clearCart
  | Call_checkout => ApiService_checkout
  | Call_getOrderHistory => ApiService_getOrderHistory
  | Call_getOrder i => ApiService_getOrder i
  | Call_getAllOrders st => ApiService_getAllOrders st
  | Call_updateOrderStatus i st => ApiService_updateOrderStatus i st
  | Call_getDashboardData => ApiService_getDashboardData
  end.

(** The three authentication operations are the ones written without a
    [headers] option. *)
Definition is_auth_call (c : ApiCall) : bool :=
  match c with
  | Call_login _ _ | Call_register _ _ _ | Call_getUsers => true
  | _ => false
  end.

(** ** CartService (cart.service.ts) *)

Definition CartService_getCurrentCart (s : State) : Cart.t := cartSubject s.

(** The subscribers of [cart$]: the arrow functions of the three
    [ngOnInit] methods. *)
Definition cart_notify (sub : CartSubscriber) (cart : Cart.t) (s : State) : State :=
  match sub with
  | UserLayout_cart_subscriber => set_layout_cartItemCount (Cart.item_count cart) s
  | CartComponent_cart_subscriber => set_cart_cart cart s
  | Checkout_cart_subscriber =>
      let s1 := set_checkout_cart cart s in
      if (length (Cart.items cart) =? 0)%nat
      then snackBar_open "Your cart is empty" "Close" 3000 (router_navigate "/user/cart" s1)
      else s1
  end.

(** [cartSubject.next(cart)]: replace the snapshot, then run the
    subscribers in subscription order. *)
Definition cartSubject_next (cart : Cart.t) (s : State) : State :=
  let s1 := emit (CartEmitted cart) (set_cartSubject cart s) in
  fold_left (fun acc sub => cart_notify sub cart acc) (cart_subscribers s1) s1.

(** [cart$.subscribe(f)]: a BehaviorSubject hands the current value to a
    new subscriber at once. *)
Definition cart_subscribe (sub : CartSubscriber) (s : State) : State :=
  cart_notify sub (cartSubject s) (set_cart_subscribers (cart_subscribers s ++ [sub]) s).

Definition user_subscribe (sub : UserSubscriber) (s : State) : State :=
  user_notify sub (currentUserSubject s) (set_user_subscribers (user_subscribers s ++ [sub]) s).

Definition CartService_loadCart (s : State) : State :=
  http_subscribe (ApiService_getCart s) CartService_loadCart_subscriber s.

Definition CartService_addToCart (productId quantity : Z) (observer : Observer) (s : State) : State :=
  http_subscribe (ApiService_addToCart productId quantity s)
    (CartService_addToCart_subscriber observer) s.

Definition CartService_updateCartItem (productId quantity : Z) (observer : Observer) (s : State) : State :=
  http_subscribe (ApiService_updateCartItem productId quantity s)
    (CartService_updateCartItem_subscriber observer) s.

Definition CartService_removeFromCart (productId : Z) (observer : Observer) (s : State) : State :=
  http_subscribe (ApiService_removeFromCart productId s)
    (CartService_removeFromCart_subscriber observer) s.

Definition CartService_clearCart (observer : Observer) (s : State) : State :=
  http_subscribe (ApiService_clearCart s) (CartService_clearCart_subscriber observer) s.

Definition CartService_getCartItemCount (s : State) : Z := Cart.item_count (cartSubject s).

(** ** The handlers of the component observers *)

Definition observer_next (o : Observer) (p : Payload) (s : State) : State :=
  let s := emit (ObserverNext o p) s in
  match o with
  | ProductList_addToCart_observer product =>
      snackBar_open (Product.name product +:+ " added to cart") "Close" 2000 s
  | Cart_updateQuantity_observer item =>
      snackBar_open "Cart updated" "Close" 2000
        (set_cart_updating (CartItem.product_id item) false s)
  | Cart_removeItem_observer item =>
      snackBar_open (CartItem.product_name item +:+ " removed from cart") "Close" 2000
        (set_cart_updating (CartItem.product_id item) false s)
  | Cart_clearCart_observer =>
      snackBar_open "Cart cleared" "Close" 2000 (set_cart_loading false s)
  end.

(** No component passes a [complete] handler. *)
Definition observer_complete (o : Observer) (s : State) : State :=
  emit (ObserverComplete o) s.

Definition observer_error (o : Observer) (e : HttpErrorResponse.t) (s : State) : State :=
  let s := emit (ObserverError o e) s in
  match o with
  | ProductList_addToCart_observer product =>
      snackBar_open "Error adding product to cart" "Close" 3000
        (emit (ConsoleError "Error adding to cart:" e) s)
  | Cart_updateQuantity_observer item =>
      snackBar_open "Error updating cart" "Close" 3000
        (set_cart_updating (CartItem.product_id item) false
           (emit (ConsoleError "Error updating cart:" e) s))
  | Cart_removeItem_observer item =>
      snackBar_open "Error removing item" "Close" 3000
        (set_cart_updating (CartItem.product_id item) false
           (emit (ConsoleError "Error removing item:" e) s))
  | Cart_clearCart_observer =>
      snackBar_open "Error clearing cart" "Close" 3000
        (set_cart_loading false (emit (ConsoleError "Error clearing cart:" e) s))
  end.

(** ** The handlers of the HTTP subscribers *)

(** The message the checkout handler shows:
    [error.error && error.error.error] selects the server's message. *)
Definition checkout_errorMessage (e : HttpErrorResponse.t) : string :=
  let errorMessage := "Failed to place order. Please try again." in
  match HttpErrorResponse.error e with
  | Some b => if truthy_opt (ErrorBody.error b) then default "" (ErrorBody.error b) else errorMessage
  | None => errorMessage
  end.

(** [next].  A payload of the wrong shape for the subscriber is outside
    the model ([None]). *)
Definition callback_next (k : Callback) (p : Payload) (s : State) : option State :=
  match k with
  | CartService_loadCart_subscriber =>
      match p with
      | PCart cart => Some (cartSubject_next cart s)
      | _ => None
      end
  | CartService_addToCart_subscriber observer =>
      Some (observer_complete observer (observer_next observer p (CartService_loadCart s)))
  | CartService_updateCartItem_subscriber observer =>
      Some (observer_complete observer (observer_next observer p (CartService_loadCart s)))
  | CartService_removeFromCart_subscriber observer =>
      Some (observer_complete observer (observer_next observer p (CartService_loadCart s)))
  | CartService_clearCart_subscriber observer =>
      Some (observer_complete observer (observer_next observer p (CartService_loadCart s)))
  | Login_onSubmit_subscriber =>
      match p with
      | PLogin u =>
          Some (snackBar_open "Login successful!" "Close" 3000
                  (AuthService_login u (set_login_loading false s)))
      | _ => None
      end
  | Checkout_onSubmit_subscriber =>
      Some (router_navigate "/user/orders"
              (snackBar_open "Order placed successfully!" "Close" 3000
                 (set_checkout_processing false s)))
  end.

Definition callback_error (k : Callback) (e : HttpErrorResponse.t) (s : State) : State :=
  match k with
  | CartService_loadCart_subscriber => emit (ConsoleError "Error loading cart:" e) s
  | CartService_addToCart_subscriber observer => observer_error observer e s
  | CartService_updateCartItem_subscriber observer => observer_error observer e s
  | CartService_removeFromCart_subscriber observer => observer_error observer e s
  | CartService_clearCart_subscriber observer => observer_error observer e s
  | Login_onSubmit_subscriber =>
      snackBar_open "Login failed. Please check your credentials." "Close" 3000
        (set_login_loading false s)
  | Checkout_onSubmit_subscriber =>
      snackBar_open (checkout_errorMessage e) "Close" 5000
        (emit (ConsoleError "Checkout error:" e) (set_checkout_processing false s))
  end.

(** ** Delivery of a response *)

Fixpoint pending_lookup (id : nat) (l : list (nat * (HttpRequest * Callback)))
  : option (HttpRequest * Callback) :=
  match l with
  | [] => None
  | (n, rk) :: rest => if (n =? id)%nat then Some rk else pending_lookup id rest
  end.

Fixpoint pending_remove (id : nat) (l : list (nat * (HttpRequest * Callback)))
  : list (nat * (HttpRequest * Callback)) :=
  match l with
  | [] => []
  | (n, rk) :: rest => if (n =? id)%nat then rest else (n, rk) :: pending_remove id rest
  end.

(** The response to request [id] arrives: the request leaves the set of
    requests in flight and its subscriber runs.  A response to a request
    that is not in flight is outside the model. *)
Definition deliver (id : nat) (r : HttpResult) (s : State) : option State :=
  match pending_lookup id (pending s) with
  | None => None
  | Some (_, k) =>
      let s1 := set_pending (pending_remove id (pending s)) (next_request s) s in
      match r with
      | Ok p => callback_next k p s1
      | Err e => Some (callback_error k e s1)
      end
  end.

(** ** View components *)

(** product-list.component.ts *)
Definition ProductListComponent_addToCart (product : Product.t) (s : State) : State :=
  if Product.stock product <=? 0
  then snackBar_open "Product is out of stock" "Close" 3000 s
  else CartService_addToCart (Product.id product) 1 (ProductList_addToCart_observer product) s.

(** user-layout.component.ts *)
Definition UserLayoutComponent_ngOnInit (s : State) : State :=
  CartService_loadCart
    (cart_subscribe UserLayout_cart_subscriber
       (user_subscribe UserLayout_user_subscriber s)).

Definition UserLayoutComponent_logout (s : State) : State := AuthService_logout s.

(** cart.component.ts *)
Definition CartComponent_ngOnInit (s : State) : State :=
  cart_subscribe CartComponent_cart_subscriber s.

Definition CartComponent_removeItem (item : CartItem.t) (s : State) : State :=
  let s := set_cart_updating (CartItem.product_id item) true s in
  CartService_removeFromCart (CartItem.product_id item) (Cart_removeItem_observer item) s.

Definition CartComponent_updateQuantity (item : CartItem.t) (newQuantity : Z) (s : State) : State :=
  if newQuantity <? 1 then CartComponent_removeItem item s
  else if newQuantity >? CartItem.available_stock item then
    snackBar_open ("Only " +:+ show_Z (CartItem.available_stock item) +:+ " items available")
      "Close" 3000 s
  else
    let s := set_cart_updating (CartItem.product_id item) true s in
    CartService_updateCartItem (CartItem.product_id item) newQuantity
      (Cart_updateQuantity_observer item) s.

(** [confirmed] is the answer to the [confirm] dialog. *)
Definition CartComponent_clearCart (confirmed : bool) (s : State) : State :=
  if confirmed
  then CartService_clearCart Cart_clearCart_observer (set_cart_loading true s)
  else s.

Definition CartComponent_proceedToCheckout (s : State) : State :=
  if (length (Cart.items (cart_cart s)) =? 0)%nat then
    snackBar_open "Your cart is empty" "Close" 3000 s
  else
    let outOfStockItems :=
      List.filter (fun item => CartItem.quantity item >? CartItem.available_stock item)
        (Cart.items (cart_cart s)) in
    if (0 <? length outOfStockItems)%nat then
      snackBar_open "Some items in your cart are out of stock" "Close" 3000 s
    else router_navigate "/user/checkout" s.

(** checkout.component.ts; [valid] is [checkoutForm.valid]. *)
Definition CheckoutComponent_ngOnInit (s : State) : State :=
  cart_subscribe Checkout_cart_subscriber s.

Definition CheckoutComponent_onSubmit (valid : bool) (s : State) : State :=
  if valid && (0 <? length (Cart.items (checkout_cart s)))%nat then
    let s := set_checkout_processing true s in
    http_subscribe (ApiService_checkout s) Checkout_onSubmit_subscriber s
  else s.

(** login.component.ts; both fields carry [Validators.required]. *)
Definition LoginComponent_onSubmit (username password : string) (s : State) : State :=
  if truthy username && truthy password then
    let s := set_login_loading true s in
    http_subscribe (ApiService_login username password s) Login_onSubmit_subscriber s
  else s.

(** admin-orders.component.ts *)
Definition AdminOrdersComponent_updateOrderStatus (order : Order.t) (newStatus : string) (s : State) : State :=
  snackBar_open
    ("Order #" +:+ show_Z (Order.id order) +:+ " status updated to " +:+ newStatus)
    "Close" 3000
    (emit (ConsoleLog ("Update order " +:+ show_Z (Order.id order) +:+ " status to " +:+ newStatus)) s).

(** ** Runs of the client

    What can happen to the client: the user issues a command, a
    component is activated, or the response to a request in flight
    arrives. *)
Inductive Action :=
  | A_UserLayout_ngOnInit
  | A_UserLayout_logout
  | A_ProductList_addToCart (product : Product.t)
  | A_Cart_ngOnInit
  | A_Cart_updateQuantity (item : CartItem.t) (newQuantity : Z)
  | A_Cart_removeItem (item : CartItem.t)
  | A_Cart_clearCart (confirmed : bool)
  | A_Cart_proceedToCheckout
  | A_Checkout_ngOnInit
  | A_Checkout_onSubmit (valid : bool)
  | A_Login_onSubmit (username password : string)
  | A_AdminOrders_updateOrderStatus (order : Order.t) (newStatus : string)
  | A_Response (id : nat) (r : HttpResult).

Definition exec (a : Action) (s : State) : option State :=
  match a with
  | A_UserLayout_ngOnInit => Some (UserLayoutComponent_ngOnInit s)
  | A_UserLayout_logout => Some (UserLayoutComponent_logout s)
  | A_ProductList_addToCart product => Some (ProductListComponent_addToCart product s)
  | A_Cart_ngOnInit => Some (CartComponent_ngOnInit s)
  | A_Cart_updateQuantity item q => Some (CartComponent_updateQuantity item q s)
  | A_Cart_removeItem item => Some (CartComponent_removeItem item s)
  | A_Cart_clearCart confirmed => Some (CartComponent_clearCart confirmed s)
  | A_Cart_proceedToCheckout => Some (CartComponent_proceedToCheckout s)
  | A_Checkout_ngOnInit => Some (CheckoutComponent_ngOnInit s)
  | A_Checkout_onSubmit valid => Some (CheckoutComponent_onSubmit valid s)
  | A_Login_onSubmit username password => Some (LoginComponent_onSubmit username password s)
  | A_AdminOrders_updateOrderStatus order newStatus =>
      Some (AdminOrdersComponent_updateOrderStatus order newStatus s)
  | A_Response id r => deliver id r s
  end.

Fixpoint run (acts : list Action) (s : State) : option State :=
  match acts with
  | [] => Some s
  | a :: rest =>
      match exec a s with
      | Some s' => run rest s'
      | None => None
      end
  end.

(** The client at start-up: the field initialisers of the services and
    components, then the constructor of [AuthService] over whatever the
    browser has stored. *)
Definition fresh (storage : gmap string User.t) : State :=
  {| localStorage := storage;
     currentUserSubject := None;
     user_subscribers := [];
     cartSubject := empty_cart;
     cart_subscribers := [];
     pending := [];
     next_request := 0%nat;
     layout_currentUser := None;
     layout_cartItemCount := 0;
     cart_cart := empty_cart;
     cart_loading := false;
     cart_updating := ∅;
     checkout_cart := empty_cart;
     checkout_processing := false;
     login_loading := false;
     trace := [] |}.

Definition boot (storage : gmap string User.t) : State :=
  AuthService_constructor (fresh storage).

(** ** Cart consistency *)

Definition sum_quantities (items : list CartItem.t) : Z :=
  fold_right (fun i acc => CartItem.quantity i + acc) 0 items.

Definition sum_subtotals (items : list CartItem.t) : Q :=
  fold_right (fun i acc => (CartItem.subtotal i + acc)%Q) 0%Q items.

Definition cart_consistent (c : Cart.t) : Prop :=
  Cart.item_count c = sum_quantities (Cart.items c)
  ∧ (Cart.total_amount c == sum_subtotals (Cart.items c))%Q.

(** ** The server side of the cart *)

Module Server.

Record line := mkLine {
  product_id : Z;
  name : string;
  price : Q;
  quantity : Z;
  stock : Z
}.

Definition to_item (l : line) : CartItem.t :=
  {| CartItem.cart_id := 0;
     CartItem.product_id := product_id l;
     CartItem.product_name := name l;
     CartItem.product_price := price l;
     CartItem.product_image := "";
     CartItem.quantity := quantity l;
     CartItem.subtotal := Qred (price l * inject_Z (quantity l));
     CartItem.available_stock := stock l |}.

Definition derive (owner : string) (store : list line) : Cart.t :=
  let items := map to_item store in
  {| Cart.user_id := owner;
     Cart.items := items;
     Cart.total_amount := Qred (sum_subtotals items);
     Cart.item_count := sum_quantities items |}.

Definition drop (pid : Z) (store : list line) : list line :=
  List.filter (fun l => negb (product_id l =? pid)) store.

Definition acknowledged : HttpResult := Ok (PAny (JObj [])).

Definition not_found : HttpResult :=
  Err {| HttpErrorResponse.status := 404; HttpErrorResponse.error := None |}.

(** Modelled from the spec: the cart endpoints of the server, whose
    code (the API gateway and the services behind it) is not among the
    sources.  The spec says of it that a cart is a derived snapshot,
    recomputed on every mutation and fully replaced on reload, with
    the total the sum of the line subtotals and the item count the sum
    of the quantities, and that removing a product leaves the other
    lines.  [GET /cart] answers with the derived cart of the caller,
    [DELETE /cart/remove] drops the line of the product named in the
    body, [DELETE /cart/clear] drops every line; the other endpoints
    are not modelled and answer 404. *)
Definition handle (req : HttpRequest) (store : list line) : list line * HttpResult :=
  match method req with
  | GET =>
      if String.eqb (url req) (baseUrl +:+ "/cart")
      then (store, Ok (PCart (derive (default "" (header_get "X-User-ID" (headers req))) store)))
      else (store, not_found)
  | DELETE =>
      if String.eqb (url req) (baseUrl +:+ "/cart/remove") then
        match body req with
        | Some (JObj [(_, JNum pid)]) => (drop pid store, acknowledged)
        | _ => (store, not_found)
        end
      else if String.eqb (url req) (baseUrl +:+ "/cart/clear") then ([], acknowledged)
      else (store, not_found)
  | _ => (store, not_found)
  end.

End Server.

(** The server answers the requests in flight, oldest first, until none
    is left or the fuel is spent. *)
Fixpoint serve (fuel : nat) (store : list Server.line) (s : State) : option (list Server.line * State) :=
  match fuel with
  | O => Some (store, s)
  | S fuel' =>
      match last (pending s) with
      | None => Some (store, s)
      | Some (id, (req, _)) =>
          let (store', r) := Server.handle req store in
          match deliver id r s with
          | Some s' => serve fuel' store' s'
          | None => None
          end
      end
  end.

(** The scenario of the spec: product A, quantity 2 at 10, and product B,
    quantity 1 at 5. *)
Definition scenario_store : list Server.line :=
  [ Server.mkLine 1 "productA" 10 2 8; Server.mkLine 2 "productB" 5 1 3 ].

Definition scenario_itemA : CartItem.t := Server.to_item (Server.mkLine 1 "productA" 10 2 8).

(** The cart page is open and the cart has been loaded. *)
Definition scenario_loaded : option (list Server.line * State) :=
  serve 4 scenario_store
    (CartComponent_ngOnInit (UserLayoutComponent_ngOnInit (boot ∅))).

(** ** Vocabulary of the statements *)

Definition is_GET (m : Method) : bool :=
  match m with GET => true | _ => false end.

(** A full reload of the cart: a [GET /cart] request. *)
Definition is_reload (e : Event) : bool :=
  match e with
  | HttpSent _ req => is_GET (method req) && String.eqb (url req) (baseUrl +:+ "/cart")
  | _ => false
  end.

Definition is_request (e : Event) : bool :=
  match e with HttpSent _ _ => true | _ => false end.

Definition is_notification (e : Event) : bool :=
  match e with SnackBarOpen _ _ _ => true | _ => false end.

Definition is_navigation (e : Event) : bool :=
  match e with Navigate _ => true | _ => false end.

(** The messages of the notifications of a trace. *)
Definition notifications (evs : list Event) : list string :=
  flat_map (fun e => match e with SnackBarOpen m _ _ => [m] | _ => [] end) evs.


(** The message the server provides with a failure, when the body has
    one that is not empty. *)
Definition server_message (e : HttpErrorResponse.t) : option string :=
  match HttpErrorResponse.error e with
  | Some b =>
      match ErrorBody.error b with
      | Some m => if truthy m then Some m else None
      | None => None
      end
  | None => None
  end.

(** Every snapshot a state shows: the one the cache holds, the copies
    the views took, and the ones the cache has emitted so far. *)
Definition emitted_consistent (e : Event) : Prop :=
  match e with CartEmitted c => cart_consistent c | _ => True end.

Definition published_consistent (s : State) : Prop :=
  cart_consistent (cartSubject s)
  ∧ cart_consistent (cart_cart s)
  ∧ cart_consistent (checkout_cart s)
  ∧ Forall emitted_consistent (trace s).

(** The carts the server answers with satisfy the derivation. *)
Definition response_consistent (a : Action) : Prop :=
  match a with
  | A_Response _ (Ok (PCart c)) => cart_consistent c
  | _ => True
  end.

(** The four mutating operations of the cart cache, with their
    arguments. *)
Inductive CartMutation :=
  | Mut_addToCart (productId quantity : Z)
  | Mut_updateCartItem (productId quantity : Z)
  | Mut_removeFromCart (productId : Z)
  | Mut_clearCart.

Definition CartService_mutate (m : CartMutation) : Observer → State → State :=
  match m with
  | Mut_addToCart p q => CartService_addToCart p q
  | Mut_updateCartItem p q => CartService_updateCartItem p q
  | Mut_removeFromCart p => CartService_removeFromCart p
  | Mut_clearCart => CartService_clearCart
  end.

(** The notification a failed request ends in, by subscriber: the
    checkout handler alone looks into the response. *)
Definition failure_notification (k : Callback) (e : HttpErrorResponse.t) : list string :=
  match k with
  | Checkout_onSubmit_subscriber =>
      [match server_message e with
       | Some m => m
       | None => "Failed to place order. Please try again."
       end]
  | Login_onSubmit_subscriber => ["Login failed. Please check your credentials."]
  | CartService_loadCart_subscriber => []
  | CartService_addToCart_subscriber o
  | CartService_updateCartItem_subscriber o
  | CartService_removeFromCart_subscriber o
  | CartService_clearCart_subscriber o =>
      [match o with
       | ProductList_addToCart_observer _ => "Error adding product to cart"
       | Cart_updateQuantity_observer _ => "Error updating cart"
       | Cart_removeItem_observer _ => "Error removing item"
       | Cart_clearCart_observer => "Error clearing cart"
       end]
  end.

(** Sample values. *)
Definition alice : User.t :=
  {| User.id := "42"; User.username := "alice"; User.role := RoleAdmin; User.token := None |}.

Definition bob : User.t :=
  {| User.id := "7"; User.username := "bob"; User.role := RoleUser; User.token := None |}.

Definition logged_in (u : User.t) : State :=
  boot {[ storage_key := u ]}.

Definition oversold_item : CartItem.t :=
  {| CartItem.cart_id := 1; CartItem.product_id := 9; CartItem.product_name := "lamp";
     CartItem.product_price := 12; CartItem.product_image := "";
     CartItem.quantity := 1; CartItem.subtotal := 12; CartItem.available_stock := -1 |}.

Definition mug (stock : Z) : Product.t :=
  {| Product.id := 3; Product.name := "mug"; Product.description := "";
     Product.price := 4; Product.stock := stock; Product.category := "Home & Kitchen";
     Product.image_url := "" |}.

Definition order7 : Order.t :=
  {| Order.id := 7; Order.user_id := "7"; Order.total_amount := 25; Order.status := "pending";
     Order.created_at := ""; Order.updated_at := ""; Order.items := [] |}.

Definition stock_rejection : HttpErrorResponse.t :=
  {| HttpErrorResponse.status := 400;
     HttpErrorResponse.error := Some {| ErrorBody.error := Some "Insufficient stock" |} |}.

Definition server_down : HttpErrorResponse.t :=
  {| HttpErrorResponse.status := 500; HttpErrorResponse.error := None |}.

(** ** String primitives of the views

    [String.prototype.toLowerCase] folds the letters of all of Unicode
    and is not embedded: every view that calls it takes it as the
    parameter [toLowerCase], and the properties of the views are proved
    for whatever function it is.  [ascii_toLowerCase] is what it does on
    ASCII text (A to Z become a to z, nothing else changes); it serves
    to run the views on ASCII samples only.  [includes] is the substring
    test. *)

Definition lower_ascii (c : Ascii.ascii) : Ascii.ascii :=
  let n := Ascii.nat_of_ascii c in
  if ((65 <=? n) && (n <=? 90))%nat then Ascii.ascii_of_nat (n + 32) else c.

Fixpoint ascii_toLowerCase (s : string) : string :=
  match s with
  | EmptyString => EmptyString
  | String c rest => String (lower_ascii c) (ascii_toLowerCase rest)
  end.

Fixpoint includes (s sub : string) : bool :=
  if String.prefix sub s then true
  else match s with
       | EmptyString => false
       | String _ rest => includes rest sub
       end.

(** [Array.from(new Set(l))]: the distinct elements of [l] in the order
    of their first occurrence. *)
Definition Set_from (l : list string) : list string :=
  fold_left (fun acc x => if bool_decide (x ∈ acc) then acc else acc ++ [x]) l [].

(** ** Order status and stock labels

    [getStatusClass] is the same method in the order history, the admin
    orders and the admin dashboard components; [getStatusIcon] is the
    same in the first two. *)

Definition getStatusClass (toLowerCase : string → string) (status : string) : string :=
  let s := toLowerCase status in
  if String.eqb s "pending" then "status-pending"
  else if String.eqb s "confirmed" then "status-confirmed"
  else if String.eqb s "shipped" then "status-shipped"
  else if String.eqb s "delivered" then "status-delivered"
  else if String.eqb s "cancelled" then "status-cancelled"
  else "status-pending".

Definition getStatusIcon (toLowerCase : string → string) (status : string) : string :=
  let s := toLowerCase status in
  if String.eqb s "pending" then "hourglass_empty"
  else if String.eqb s "confirmed" then "check_circle"
  else if String.eqb s "shipped" then "local_shipping"
  else if String.eqb s "delivered" then "check_circle_outline"
  else if String.eqb s "cancelled" then "cancel"
  else "hourglass_empty".

(** admin-products.component.ts *)
Definition getStockClass (stock : Z) : string :=
  if stock <=? 0 then "out-of-stock"
  else if stock <? 10 then "low-stock"
  else "in-stock".

Definition getStockText (stock : Z) : string :=
  if stock <=? 0 then "Out of Stock"
  else if stock <? 10 then "Low Stock (" +:+ show_Z stock +:+ ")"
  else show_Z stock +:+ " in stock".

(** ** The product pages

    [ProductListComponent] and [AdminProductsComponent] have the same
    fields and the same [loadProducts], [extractCategories],
    [filterProducts] and [clearFilters]. *)

Module ProductsView.

Record t := mk {
  products : list Product.t;
  filteredProducts : list Product.t;
  loading : bool;
  searchTerm : string;
  selectedCategory : string;
  categories : list string
}.

(** The field initialisers. *)
Definition init : t := mk [] [] true "" "" [].

Definition matches_search (toLowerCase : string → string) (term : string)
    (product : Product.t) : bool :=
  includes (toLowerCase (Product.name product)) (toLowerCase term)
  || includes (toLowerCase (Product.description product)) (toLowerCase term).

Definition matches_category (cat : string) (product : Product.t) : bool :=
  String.eqb (Product.category product) cat.

Definition extractCategories (v : t) : t :=
  let categorySet :=
    Set_from (List.filter truthy (map Product.category (products v))) in
  mk (products v) (filteredProducts v) (loading v) (searchTerm v) (selectedCategory v)
     categorySet.

Definition filterProducts (toLowerCase : string → string) (v : t) : t :=
  let filtered := products v in
  let filtered :=
    if truthy (searchTerm v)
    then List.filter (matches_search toLowerCase (searchTerm v)) filtered
    else filtered in
  let filtered :=
    if truthy (selectedCategory v)
    then List.filter (matches_category (selectedCategory v)) filtered
    else filtered in
  mk (products v) filtered (loading v) (searchTerm v) (selectedCategory v) (categories v).

Definition onSearch (toLowerCase : string → string) (v : t) : t :=
  filterProducts toLowerCase v.

Definition clearFilters (v : t) : t :=
  mk (products v) (products v) (loading v) "" "" (categories v).

(** [loadProducts], up to the subscription. *)
Definition loadProducts (v : t) : t :=
  mk (products v) (filteredProducts v) true (searchTerm v) (selectedCategory v) (categories v).

(** The [next] handler of [loadProducts]. *)
Definition loadProducts_next (loaded : list Product.t) (v : t) : t :=
  let v := mk loaded loaded (loading v) (searchTerm v) (selectedCategory v) (categories v) in
  let v := extractCategories v in
  mk (products v) (filteredProducts v) false (searchTerm v) (selectedCategory v) (categories v).

(** The [error] handler of [loadProducts], as far as the fields of the
    page go: it also writes a console line and shows 'Error loading
    products', which this record does not hold. *)
Definition loadProducts_error (v : t) : t :=
  mk (products v) (filteredProducts v) false (searchTerm v) (selectedCategory v) (categories v).

(** The subscriber of [route.queryParams] in [ProductListComponent]. *)
Definition queryParams_next (toLowerCase : string → string) (category : option string)
    (v : t) : t :=
  if truthy_opt category
  then filterProducts toLowerCase
         (mk (products v) (filteredProducts v) (loading v) (searchTerm v)
             (default "" category) (categories v))
  else v.

(** The search box and the category select write their field. *)
Definition type_search (term : string) (v : t) : t :=
  mk (products v) (filteredProducts v) (loading v) term (selectedCategory v) (categories v).

Definition select_category (cat : string) (v : t) : t :=
  mk (products v) (filteredProducts v) (loading v) (searchTerm v) cat (categories v).

(** What can happen to the page. *)
Inductive op :=
  | Op_loadProducts
  | Op_loadProducts_next (loaded : list Product.t)
  | Op_loadProducts_error
  | Op_type_search (term : string)
  | Op_select_category (cat : string)
  | Op_onSearch
  | Op_filterProducts
  | Op_clearFilters
  | Op_queryParams (category : option string).

Definition step (toLowerCase : string → string) (o : op) (v : t) : t :=
  match o with
  | Op_loadProducts => loadProducts v
  | Op_loadProducts_next loaded => loadProducts_next loaded v
  | Op_loadProducts_error => loadProducts_error v
  | Op_type_search term => type_search term v
  | Op_select_category cat => select_category cat v
  | Op_onSearch => onSearch toLowerCase v
  | Op_filterProducts => filterProducts toLowerCase v
  | Op_clearFilters => clearFilters v
  | Op_queryParams category => queryParams_next toLowerCase category v
  end.

Definition steps (toLowerCase : string → string) (ops : list op) (v : t) : t :=
  fold_left (fun acc o => step toLowerCase o acc) ops v.

End ProductsView.

(** ** The admin orders page (admin-orders.component.ts)

    [matchesDateRange] compares dates with the clock; it is a parameter
    of the filter. *)

Module AdminOrdersView.

Record t := mk {
  orders : list Order.t;
  filteredOrders : list Order.t;
  loading : bool;
  searchTerm : string;
  selectedStatus : string;
  selectedDateRange : string
}.

Definition init : t := mk [] [] true "" "" "".

Definition matchesSearch (toLowerCase : string → string) (term : string)
    (order : Order.t) : bool :=
  negb (truthy term)
  || includes (show_Z (Order.id order)) term
  || existsb (fun item => includes (toLowerCase (OrderItem.product_name item)) (toLowerCase term))
       (Order.items order).

Definition matchesStatus (toLowerCase : string → string) (status : string)
    (order : Order.t) : bool :=
  negb (truthy status) || String.eqb (toLowerCase (Order.status order)) (toLowerCase status).

Definition applyFilters (toLowerCase : string → string)
    (matchesDateRange : string → string → bool) (v : t) : t :=
  let keep order :=
    matchesSearch toLowerCase (searchTerm v) order
    && matchesStatus toLowerCase (selectedStatus v) order
    && (negb (truthy (selectedDateRange v))
        || matchesDateRange (Order.created_at order) (selectedDateRange v)) in
  mk (orders v) (List.filter keep (orders v)) (loading v)
     (searchTerm v) (selectedStatus v) (selectedDateRange v).

Definition clearFilters (v : t) : t :=
  mk (orders v) (orders v) (loading v) "" "" "".

Definition loadOrders_next (loaded : list Order.t) (v : t) : t :=
  mk loaded loaded false (searchTerm v) (selectedStatus v) (selectedDateRange v).

Definition getTotalValue (v : t) : Q :=
  fold_left (fun total order => (total + Order.total_amount order)%Q) (filteredOrders v) 0%Q.

Definition getPendingOrdersCount (toLowerCase : string → string) (v : t) : nat :=
  length (List.filter (fun order => String.eqb (toLowerCase (Order.status order)) "pending")
            (filteredOrders v)).

End AdminOrdersView.

(** ** The order history page (order-history.component.ts) *)

Module OrderHistoryView.

Record t := mk {
  orders : list Order.t;
  loading : bool;
  expandedOrder : option Z
}.

Definition init : t := mk [] true None.

Definition toggleOrderDetails (orderId : Z) (v : t) : t :=
  mk (orders v) (loading v)
     (match expandedOrder v with
      | Some e => if e =? orderId then None else Some orderId
      | None => Some orderId
      end).

Definition is_active (toLowerCase : string → string) (order : Order.t) : bool :=
  bool_decide (toLowerCase (Order.status order) ∈ ["pending"; "confirmed"; "shipped"]).

Definition getActiveOrdersCount (toLowerCase : string → string) (v : t) : nat :=
  length (List.filter (is_active toLowerCase) (orders v)).

Definition getTotalSpent (v : t) : Q :=
  fold_left (fun total order => (total + Order.total_amount order)%Q) (orders v) 0%Q.

End OrderHistoryView.

(** ** More of the cart and checkout pages *)

Definition CartComponent_continueShopping (s : State) : State :=
  router_navigate "/user/products" s.

Definition CheckoutComponent_goBack (s : State) : State :=
  router_navigate "/user/cart" s.

(** ** Vocabulary of the further statements *)

(** What a subscribed view shows agrees with the subject it follows. *)
Definition cart_view_agrees (sub : CartSubscriber) (s : State) : Prop :=
  match sub with
  | UserLayout_cart_subscriber => layout_cartItemCount s = CartService_getCartItemCount s
  | CartComponent_cart_subscriber => cart_cart s = CartService_getCurrentCart s
  | Checkout_cart_subscriber => checkout_cart s = CartService_getCurrentCart s
  end.

Definition user_view_agrees (sub : UserSubscriber) (s : State) : Prop :=
  match sub with
  | UserLayout_user_subscriber => layout_currentUser s = AuthService_getCurrentUser s
  end.

Definition views_agree (s : State) : Prop :=
  Forall (fun sub => cart_view_agrees sub s) (cart_subscribers s)
  ∧ Forall (fun sub => user_view_agrees sub s) (user_subscribers s).

(** The events from position [n] on. *)
Definition events_since (n : nat) (s : State) : list Event := skipn n (trace s).

Definition within_stock (item : CartItem.t) : Prop :=
  CartItem.quantity item ≤ CartItem.available_stock item.

Definition status_classes : list string :=
  ["status-pending"; "status-confirmed"; "status-shipped"; "status-delivered"; "status-cancelled"].

(** The identity in the browser's storage is the identity of the
    session. *)
Definition session_persisted (s : State) : Prop :=
  localStorage s !! storage_key = AuthService_getCurrentUser s.

Definition coherent (s : State) : Prop :=
  session_persisted s ∧ views_agree s.

(** What the subscribers of [cart$] add to the trace when a cart is
    published: the checkout page leaves when the cart has no items. *)
Definition publish_effects (cart : Cart.t) (sub : CartSubscriber) : list Event :=
  match sub with
  | Checkout_cart_subscriber =>
      if (length (Cart.items cart) =? 0)%nat
      then [Navigate "/user/cart"; SnackBarOpen "Your cart is empty" "Close" 3000]
      else []
  | _ => []
  end.

(** More sample values. *)
Definition session_day : list Action :=
  [ A_Login_onSubmit "bob" "secret";
    A_Response 0 (Ok (PLogin bob));
    A_UserLayout_ngOnInit;
    A_Cart_ngOnInit;
    A_Response 1 (Ok (PCart (Server.derive "7" scenario_store))) ].

Definition cart_of (items : list CartItem.t) : Cart.t :=
  {| Cart.user_id := "7"; Cart.items := items;
     Cart.total_amount := sum_subtotals items; Cart.item_count := sum_quantities items |}.

Definition teapot : Product.t :=
  {| Product.id := 4; Product.name := "Tea Pot"; Product.description := "cast iron";
     Product.price := 30; Product.stock := 12; Product.category := "Home & Kitchen";
     Product.image_url := "" |}.

Definition novel : Product.t :=
  {| Product.id := 5; Product.name := "Novel"; Product.description := "a TEA-time read";
     Product.price := 9; Product.stock := 0; Product.category := "Books";
     Product.image_url := "" |}.

Definition shelf : list Product.t := [teapot; novel; mug 5].

Definition order_with (id : Z) (status : string) : Order.t :=
  {| Order.id := id; Order.user_id := "7"; Order.total_amount := 25; Order.status := status;
     Order.created_at := ""; Order.updated_at := ""; Order.items := [] |}.

Definition nameless_admin : User.t :=
  {| User.id := ""; User.username := "root"; User.role := RoleAdmin; User.token := None |}.

(** * Properties *)

(** ** Remote store client: identity headers *)

Lemma role_string_truthy r : truthy (role_string r) = true.
Proof. by destruct r. Qed.

Lemma getHeaders_id s :
  header_get "X-User-ID" (ApiService_getHeaders s)
  = Some (or_else (User.id <$> AuthService_getCurrentUser s) "user1").
Proof. reflexivity. Qed.

Lemma getHeaders_role s :
  header_get "X-User-Role" (ApiService_getHeaders s)
  = Some (match AuthService_getCurrentUser s with
          | Some u => role_string (User.role u)
          | None => "user"
          end).
Proof.
  unfold ApiService_getHeaders. cbn.
  destruct (AuthService_getCurrentUser s) as [u|]; cbn; [|done].
  by rewrite role_string_truthy.
Qed.

Lemma resource_call_headers c s :
  is_auth_call c = false → headers (ApiService_request c s) = ApiService_getHeaders s.
Proof. destruct c; cbn; intros H; try discriminate H; reflexivity. Qed.

(** Notifying the subscribers of [currentUser$] touches the views only. *)
Lemma user_notify_frame subs u s :
  let s' := fold_left (fun acc sub => user_notify sub u acc) subs s in
  localStorage s' = localStorage s
  ∧ currentUserSubject s' = currentUserSubject s
  ∧ cartSubject s' = cartSubject s
  ∧ cart_cart s' = cart_cart s
  ∧ checkout_cart s' = checkout_cart s
  ∧ pending s' = pending s
  ∧ next_request s' = next_request s
  ∧ trace s' = trace s.
Proof.
  revert s. induction subs as [|sub subs IH]; intros s; cbn; [done|].
  specialize (IH (user_notify sub u s)). cbn in IH.
  destruct sub; cbn in *. exact IH.
Qed.

Lemma logout_clears s : AuthService_getCurrentUser (AuthService_logout s) = None.
Proof.
  unfold AuthService_logout, AuthService_getCurrentUser, currentUserSubject_next, router_navigate.
  cbn.
  match goal with
  | |- context [fold_left ?f ?l ?a] =>
      destruct (user_notify_frame l None a) as (_ & H & _)
  end.
  cbn in H. exact H.
Qed.

Lemma logout_forgets s : localStorage (AuthService_logout s) !! storage_key = None.
Proof.
  unfold AuthService_logout, currentUserSubject_next, router_navigate.
  cbn.
  match goal with
  | |- context [fold_left ?f ?l ?a] =>
      destruct (user_notify_frame l None a) as (H & _)
  end.
  cbn in H. rewrite H. apply lookup_delete_eq.
Qed.

(** C3, as it holds: every operation on products, cart, orders and the
    admin resources sends [X-User-ID] and [X-User-Role]: the id is the
    current identity's, or ['user1'] when no identity is set or its id
    is empty; the role is the current identity's, or ['user'] when no
    identity is set (so an identity with an empty id goes out as
    ['user1'] with its own role); after logout both headers are the
    guest defaults.  The three authentication operations (login,
    register, getUsers) send no headers at all. *)
Theorem identity_headers_by_call (c : ApiCall) (s : State) :
  (is_auth_call c = false →
   let hs := headers (ApiService_request c s) in
   let guest := headers (ApiService_request c (AuthService_logout s)) in
   header_get "X-User-ID" hs
     = Some (match AuthService_getCurrentUser s with
             | Some u => if truthy (User.id u) then User.id u else "user1"
             | None => "user1"
             end)
   ∧ header_get "X-User-Role" hs
     = Some (match AuthService_getCurrentUser s with
             | Some u => role_string (User.role u)
             | None => "user"
             end)
   ∧ header_get "X-User-ID" guest = Some "user1"
   ∧ header_get "X-User-Role" guest = Some "user")
  ∧ (is_auth_call c = true → headers (ApiService_request c s) = [])
  ∧ (is_auth_call c = true
     ↔ (∃ username password, c = Call_login username password)
       ∨ (∃ username password role, c = Call_register username password role)
       ∨ c = Call_getUsers).
Proof.
  split; [|split].
  - intros Hc hs guest. subst hs guest.
    rewrite !(resource_call_headers c) by exact Hc.
    rewrite !getHeaders_id, !getHeaders_role, logout_clears.
    repeat split.
    destruct (AuthService_getCurrentUser s); reflexivity.
  - destruct c; cbn; intros H; (reflexivity || discriminate H).
  - destruct c; cbn; split; intros H; try discriminate H; try reflexivity;
      try (destruct H as [(? & ? & H)|[(? & ? & ? & H)|H]]; discriminate H).
    + left. by eexists _, _.
    + right; left. by eexists _, _, _.
    + right; right. reflexivity.
Qed.

Lemma identity_headers_by_call_witness :
  (is_auth_call (Call_updateOrderStatus 7 "shipped") = false
   ∧ header_get "X-User-ID"
       (headers (ApiService_request (Call_updateOrderStatus 7 "shipped") (logged_in alice)))
     = Some "42"
   ∧ header_get "X-User-Role"
       (headers (ApiService_request (Call_updateOrderStatus 7 "shipped") (logged_in alice)))
     = Some "admin"
   ∧ header_get "X-User-ID"
       (headers (ApiService_request Call_getCart (logged_in nameless_admin)))
     = Some "user1"
   ∧ header_get "X-User-Role"
       (headers (ApiService_request Call_getCart (logged_in nameless_admin)))
     = Some "admin")
  ∧ (is_auth_call (Call_register "carol" "secret" "admin") = true
     ∧ headers (ApiService_request (Call_register "carol" "secret" "admin") (logged_in alice))
       = []).
Proof.
  split.
  - split; [reflexivity|].
    destruct (proj1 (identity_headers_by_call (Call_updateOrderStatus 7 "shipped")
                       (logged_in alice)) eq_refl) as (Hid & Hrole & _).
    destruct (proj1 (identity_headers_by_call Call_getCart (logged_in nameless_admin)) eq_refl)
      as (Hid' & Hrole' & _).
    split; [exact Hid|]. split; [exact Hrole|]. split; [exact Hid' | exact Hrole'].
  - split; [reflexivity|].
    exact (proj1 (proj2 (identity_headers_by_call (Call_register "carol" "secret" "admin")
                           (logged_in alice))) eq_refl).
Defined.

(** C3, as stated, fails: the login operation (like register and
    getUsers) sends neither identity header, be it with alice logged in
    or, in place of the guest defaults, with nobody logged in. *)
Lemma login_call_sends_no_identity :
  AuthService_getCurrentUser (logged_in alice) = Some alice
  ∧ header_get "X-User-ID"
      (headers (ApiService_request (Call_login "alice" "secret") (logged_in alice))) = None
  ∧ header_get "X-User-Role"
      (headers (ApiService_request (Call_login "alice" "secret") (logged_in alice))) = None
  ∧ AuthService_getCurrentUser (boot ∅) = None
  ∧ header_get "X-User-ID"
      (headers (ApiService_request (Call_login "alice" "secret") (boot ∅))) = None
  ∧ header_get "X-User-Role"
      (headers (ApiService_request (Call_login "alice" "secret") (boot ∅))) = None.
Proof. repeat split. Qed.

(** ** Product list: the stock guard of add-to-cart *)

(** C5: for a product with stock at most 0 the add-to-cart command sends
    nothing and shows the out-of-stock notification; for a product with
    positive stock it sends the cart-add request, [POST /cart/add] with
    the product's id and quantity 1 and the identity headers, and
    nothing else happens until the response. *)
Theorem addToCart_stock_guard (product : Product.t) (s : State) :
  let s' := ProductListComponent_addToCart product s in
  let request :=
    {| method := POST;
       url := "http://localhost:5000/api/cart/add";
       headers := ApiService_getHeaders s;
       body := Some (JObj [("product_id", JNum (Product.id product)); ("quantity", JNum 1)]) |} in
  (Product.stock product ≤ 0 →
     pending s' = pending s
     ∧ trace s' = trace s ++ [SnackBarOpen "Product is out of stock" "Close" 3000])
  ∧ (0 < Product.stock product →
     pending s'
       = (next_request s,
          (request, CartService_addToCart_subscriber (ProductList_addToCart_observer product)))
         :: pending s
     ∧ trace s' = trace s ++ [HttpSent (next_request s) request]).
Proof.
  unfold ProductListComponent_addToCart. cbn zeta.
  destruct (Z.leb_spec (Product.stock product) 0) as [Hle|Hgt]; split; intros H; try lia.
  - split; reflexivity.
  - split; reflexivity.
Qed.

Lemma addToCart_stock_guard_witness :
  (Product.stock (mug 0) ≤ 0
   ∧ trace (ProductListComponent_addToCart (mug 0) (boot ∅))
     = [SnackBarOpen "Product is out of stock" "Close" 3000])
  ∧ (0 < Product.stock (mug 5)
     ∧ trace (ProductListComponent_addToCart (mug 5) (boot ∅))
       = [HttpSent 0
            {| method := POST;
               url := "http://localhost:5000/api/cart/add";
               headers := [("Content-Type", "application/json");
                           ("X-User-ID", "user1"); ("X-User-Role", "user")];
               body := Some (JObj [("product_id", JNum 3); ("quantity", JNum 1)]) |}]).
Proof.
  split.
  - assert (H : Product.stock (mug 0) ≤ 0) by (cbn; lia).
    split; [exact H|].
    exact (proj2 (proj1 (addToCart_stock_guard (mug 0) (boot ∅)) H)).
  - assert (H : 0 < Product.stock (mug 5)) by (cbn; lia).
    split; [exact H|].
    exact (proj2 (proj2 (addToCart_stock_guard (mug 5) (boot ∅)) H)).
Defined.

(** ** Admin orders: the update-status command *)

(** C8, what the code does: the update-status command of the admin order
    page sends no request at all; it writes a console line and shows a
    notification that the status was updated, whatever the order and the
    status.  [ApiService_updateOrderStatus] is never subscribed. *)
Theorem updateOrderStatus_sends_nothing (order : Order.t) (newStatus : string) (s : State) :
  let s' := AdminOrdersComponent_updateOrderStatus order newStatus s in
  pending s' = pending s
  ∧ next_request s' = next_request s
  ∧ trace s'
    = trace s
      ++ [ConsoleLog ("Update order " +:+ show_Z (Order.id order) +:+ " status to " +:+ newStatus);
          SnackBarOpen ("Order #" +:+ show_Z (Order.id order) +:+ " status updated to " +:+ newStatus)
            "Close" 3000].
Proof.
  cbn. repeat split. by rewrite <- app_assoc.
Qed.

Example updateOrderStatus_order7 :
  let s' := AdminOrdersComponent_updateOrderStatus order7 "shipped" (logged_in alice) in
  List.filter is_request (trace s') = []
  ∧ pending s' = []
  ∧ notifications (trace s') = ["Order #7 status updated to shipped"].
Proof. repeat split. Qed.

(** ** Cart page: the stock limit of update-quantity *)

(** C10, as it holds: a requested quantity of at least 1 that exceeds
    the available stock of the item sends no request, leaves the
    snapshot, the view's copy and the per-item flags as they were, and
    shows only the stock-limit notification. *)
Theorem updateQuantity_stock_limit (item : CartItem.t) (newQuantity : Z) (s : State) :
  1 ≤ newQuantity →
  newQuantity > CartItem.available_stock item →
  let s' := CartComponent_updateQuantity item newQuantity s in
  pending s' = pending s
  ∧ next_request s' = next_request s
  ∧ cartSubject s' = cartSubject s
  ∧ cart_cart s' = cart_cart s
  ∧ checkout_cart s' = checkout_cart s
  ∧ cart_updating s' = cart_updating s
  ∧ trace s'
    = trace s
      ++ [SnackBarOpen ("Only " +:+ show_Z (CartItem.available_stock item) +:+ " items available")
            "Close" 3000].
Proof.
  intros H1 Hgt. unfold CartComponent_updateQuantity. cbn zeta.
  destruct (Z.ltb_spec newQuantity 1) as [Hlt|_]; [lia|].
  destruct (Z.gtb_spec newQuantity (CartItem.available_stock item)) as [_|Hle]; [|lia].
  repeat split.
Qed.

Lemma updateQuantity_stock_limit_witness :
  1 ≤ 9 ∧ 9 > CartItem.available_stock scenario_itemA
  ∧ trace (CartComponent_updateQuantity scenario_itemA 9 (boot ∅))
    = [SnackBarOpen "Only 8 items available" "Close" 3000].
Proof.
  assert (H1 : 1 ≤ 9) by lia.
  assert (H2 : 9 > CartItem.available_stock scenario_itemA) by (cbn; lia).
  split; [exact H1|]. split; [exact H2|].
  pose proof (updateQuantity_stock_limit scenario_itemA 9 (boot ∅) H1 H2) as H.
  cbn zeta in H. exact (proj2 (proj2 (proj2 (proj2 (proj2 (proj2 H)))))).
Defined.

(** With a stock that is not negative the first branch cannot take a
    quantity above the stock, and C10 holds as worded. *)
Lemma updateQuantity_above_nonneg_stock (item : CartItem.t) (newQuantity : Z) (s : State) :
  0 ≤ CartItem.available_stock item →
  newQuantity > CartItem.available_stock item →
  pending (CartComponent_updateQuantity item newQuantity s) = pending s
  ∧ notifications (trace (CartComponent_updateQuantity item newQuantity s))
    = notifications (trace s)
      ++ ["Only " +:+ show_Z (CartItem.available_stock item) +:+ " items available"].
Proof.
  intros H0 Hgt. unfold CartComponent_updateQuantity.
  destruct (Z.ltb_spec newQuantity 1) as [Hlt|_]; [lia|].
  destruct (Z.gtb_spec newQuantity (CartItem.available_stock item)) as [_|Hle]; [|lia].
  split; [reflexivity|]. cbn. unfold notifications. by rewrite flat_map_app.
Qed.

(** C10, as stated, fails: for an item whose available stock is -1 a
    requested quantity of 0 exceeds the stock, yet the command takes the
    removal branch: it sends [DELETE /cart/remove], raises the item's
    flag and shows no notification. *)
Lemma updateQuantity_above_negative_stock_removes :
  0 > CartItem.available_stock oversold_item
  ∧ (let s' := CartComponent_updateQuantity oversold_item 0 (boot ∅) in
     trace s' = [HttpSent 0 (ApiService_removeFromCart 9 (boot ∅))]
     ∧ pending s'
       = [(0%nat, (ApiService_removeFromCart 9 (boot ∅),
                   CartService_removeFromCart_subscriber (Cart_removeItem_observer oversold_item)))]
     ∧ cart_updating s' !! 9 = Some true
     ∧ notifications (trace s') = []).
Proof. split; [cbn; lia|]. cbn zeta. repeat split. Qed.

(** ** Delivery of responses *)

Lemma deliver_ok s id req k p :
  pending_lookup id (pending s) = Some (req, k) →
  deliver id (Ok p) s
  = callback_next k p (set_pending (pending_remove id (pending s)) (next_request s) s).
Proof. intros H. unfold deliver. by rewrite H. Qed.

Lemma deliver_err s id req k e :
  pending_lookup id (pending s) = Some (req, k) →
  deliver id (Err e) s
  = Some (callback_error k e (set_pending (pending_remove id (pending s)) (next_request s) s)).
Proof. intros H. unfold deliver. by rewrite H. Qed.


Lemma observer_next_trace o p s :
  ∃ notif, is_notification notif = true
    ∧ trace (observer_next o p s) = trace s ++ [ObserverNext o p; notif]
    ∧ pending (observer_next o p s) = pending s
    ∧ cartSubject (observer_next o p s) = cartSubject s.
Proof.
  destruct o; cbn; eexists; (split; [|split; [by rewrite <- app_assoc | done]]); reflexivity.
Qed.

Lemma observer_error_trace o e s :
  ∃ evs, List.filter is_request evs = []
    ∧ trace (observer_error o e s) = trace s ++ ObserverError o e :: evs
    ∧ pending (observer_error o e s) = pending s
    ∧ cartSubject (observer_error o e s) = cartSubject s.
Proof.
  destruct o; cbn; eexists; (split; [|split; [by rewrite <- !app_assoc | done]]); reflexivity.
Qed.

(** ** Cart cache: publication *)

(** Notifying the subscribers of [cart$] updates the views; the only
    events it adds are the redirect and the notification of the checkout
    page. *)
Lemma cart_notify_frame cart subs s :
  let s' := fold_left (fun acc sub => cart_notify sub cart acc) subs s in
  cartSubject s' = cartSubject s
  ∧ pending s' = pending s
  ∧ next_request s' = next_request s
  ∧ localStorage s' = localStorage s
  ∧ currentUserSubject s' = currentUserSubject s
  ∧ (cart_cart s' = cart_cart s ∨ cart_cart s' = cart)
  ∧ (checkout_cart s' = checkout_cart s ∨ checkout_cart s' = cart)
  ∧ ∃ evs, trace s' = trace s ++ evs
           ∧ Forall (fun e => is_notification e || is_navigation e = true) evs.
Proof.
  revert s. induction subs as [|sub subs IH]; intros s; cbn.
  - repeat split; try (by left). exists []. by rewrite app_nil_r.
  - destruct (IH (cart_notify sub cart s)) as (H1 & H2 & H3 & H4 & H5 & H6 & H7 & evs & Ht & Hf).
    cbn in *. rewrite H1, H2, H3, H4, H5, Ht.
    destruct sub; cbn in *.
    + repeat split; try assumption. by exists evs.
    + repeat split; try assumption.
      * destruct H6 as [-> | ->]; by right.
      * by exists evs.
    + destruct (length (Cart.items cart) =? 0)%nat; cbn in *.
      * repeat split; try assumption.
        { destruct H7 as [-> | ->]; by right. }
        eexists (_ :: _ :: evs). rewrite <- !app_assoc. cbn. split; [reflexivity|].
        repeat constructor. exact Hf.
      * repeat split; try assumption.
        { destruct H7 as [-> | ->]; by right. }
        by exists evs.
Qed.

(** The snapshot changes when the response to the reload arrives, not
    before: the observer of the mutation has resolved by then. *)
Lemma reload_response_publishes s id req cart :
  pending_lookup id (pending s) = Some (req, CartService_loadCart_subscriber) →
  ∃ s', deliver id (Ok (PCart cart)) s = Some s'
    ∧ CartService_getCurrentCart s' = cart
    ∧ pending s' = pending_remove id (pending s).
Proof.
  intros Hp. rewrite (deliver_ok _ _ _ _ _ Hp).
  eexists; split; [reflexivity|].
  unfold CartService_getCurrentCart, cartSubject_next.
  match goal with
  | |- context [fold_left ?f ?l ?a] =>
      destruct (cart_notify_frame cart l a) as (Hc & Hpe & _)
  end.
  split; [rewrite Hc | rewrite Hpe]; reflexivity.
Qed.

(** ** Cart cache: a failed reload *)

(** C9: when the response to a reload is a failure, the snapshot of the
    cache and every view's copy stay as they were, nothing is emitted on
    [cart$], nothing is sent again, and the only effect is one line on
    the console. *)
Theorem loadCart_failure_keeps_snapshot (s : State) (id : nat) (req : HttpRequest)
    (e : HttpErrorResponse.t) :
  pending_lookup id (pending s) = Some (req, CartService_loadCart_subscriber) →
  ∃ s', deliver id (Err e) s = Some s'
    ∧ CartService_getCurrentCart s' = CartService_getCurrentCart s
    ∧ CartService_getCartItemCount s' = CartService_getCartItemCount s
    ∧ cart_cart s' = cart_cart s
    ∧ checkout_cart s' = checkout_cart s
    ∧ layout_cartItemCount s' = layout_cartItemCount s
    ∧ trace s' = trace s ++ [ConsoleError "Error loading cart:" e]
    ∧ pending s' = pending_remove id (pending s)
    ∧ next_request s' = next_request s.
Proof.
  intros Hp. rewrite (deliver_err _ _ _ _ _ Hp).
  eexists; split; [reflexivity|]. cbn. repeat split.
Qed.

Lemma loadCart_failure_keeps_snapshot_witness :
  ∃ store loaded,
    scenario_loaded = Some (store, loaded)
    ∧ pending_lookup 1 (pending (CartService_loadCart loaded))
      = Some (ApiService_getCart loaded, CartService_loadCart_subscriber)
    ∧ ∃ s', deliver 1 (Err server_down) (CartService_loadCart loaded) = Some s'
        ∧ CartService_getCurrentCart s' = CartService_getCurrentCart loaded
        ∧ Cart.item_count (CartService_getCurrentCart s') = 3.
Proof.
  eexists _, _. split; [vm_compute; reflexivity|].
  match goal with
  | |- pending_lookup 1 (pending ?s) = Some (?r, ?k) ∧ _ =>
      assert (Hp : pending_lookup 1 (pending s) = Some (r, k)) by reflexivity;
      split; [exact Hp|];
      destruct (loadCart_failure_keeps_snapshot s 1%nat r server_down Hp)
        as (s' & Hd & Hc & _);
      exists s'; split; [exact Hd|]; split; [exact Hc|];
      rewrite Hc; reflexivity
  end.
Defined.

(** ** Session state: login *)

Lemma AuthService_login_effect u s :
  let s' := AuthService_login u s in
  AuthService_getCurrentUser s' = Some u
  ∧ localStorage s' = <[storage_key := u]> (localStorage s)
  ∧ pending s' = pending s
  ∧ trace s'
    = trace s ++ [UserEmitted (Some u);
                  Navigate (match User.role u with
                            | RoleAdmin => "/admin"
                            | RoleUser => "/user"
                            end)].
Proof.
  unfold AuthService_login, AuthService_getCurrentUser, currentUserSubject_next.
  cbn zeta.
  set (a := emit _ _).
  destruct (user_notify_frame (user_subscribers a) (Some u) a)
    as (H1 & H2 & _ & _ & _ & H3 & _ & H4).
  cbn zeta in H1, H2, H3, H4.
  set (s2 := fold_left _ _ _) in *. clearbody s2.
  assert (Ha : localStorage a = <[storage_key := u]> (localStorage s)
               ∧ currentUserSubject a = Some u
               ∧ pending a = pending s
               ∧ trace a = trace s ++ [UserEmitted (Some u)]) by (repeat split).
  destruct Ha as (Ha1 & Ha2 & Ha3 & Ha4). clearbody a.
  destruct (User.role u); cbn; rewrite H1, H2, H3, H4, Ha1, Ha2, Ha3, Ha4;
    rewrite <- app_assoc; repeat split.
Qed.

(** Submitting the login form with both fields filled sends the login
    request. *)
Lemma onSubmit_sends_login username password s :
  truthy username = true → truthy password = true →
  pending_lookup (next_request s) (pending (LoginComponent_onSubmit username password s))
  = Some (ApiService_login username password s, Login_onSubmit_subscriber).
Proof.
  intros Hu Hp. unfold LoginComponent_onSubmit. rewrite Hu, Hp. cbn.
  by rewrite Nat.eqb_refl.
Qed.

(** C6: when the login request succeeds, the identity of the response is
    stored (in the session and in the browser's storage) and the client
    navigates to the admin surface for role admin and to the user
    surface for role user; when it fails, the session and the storage
    are untouched, nothing is navigated to, and the failure notification
    is shown. *)
Theorem login_outcomes (s : State) (id : nat) (req : HttpRequest) :
  pending_lookup id (pending s) = Some (req, Login_onSubmit_subscriber) →
  (∀ u, ∃ s',
      deliver id (Ok (PLogin u)) s = Some s'
      ∧ AuthService_getCurrentUser s' = Some u
      ∧ localStorage s' !! storage_key = Some u
      ∧ trace s'
        = trace s ++ [UserEmitted (Some u);
                      Navigate (match User.role u with
                                | RoleAdmin => "/admin"
                                | RoleUser => "/user"
                                end);
                      SnackBarOpen "Login successful!" "Close" 3000])
  ∧ (∀ e, ∃ s',
      deliver id (Err e) s = Some s'
      ∧ AuthService_getCurrentUser s' = AuthService_getCurrentUser s
      ∧ localStorage s' = localStorage s
      ∧ List.filter is_navigation (skipn (length (trace s)) (trace s')) = []
      ∧ trace s'
        = trace s ++ [SnackBarOpen "Login failed. Please check your credentials." "Close" 3000]).
Proof.
  intros Hp. split.
  - intros u. rewrite (deliver_ok _ _ _ _ _ Hp). cbn [callback_next].
    eexists; split; [reflexivity|].
    set (s1 := set_login_loading false _).
    destruct (AuthService_login_effect u s1) as (Hc & Hl & _ & Ht).
    cbn zeta in Hc, Hl, Ht.
    set (s2 := AuthService_login u s1) in *. clearbody s2.
    unfold AuthService_getCurrentUser in *. cbn.
    rewrite Hc, Hl, Ht. repeat split.
    + apply lookup_insert_eq.
    + subst s1. cbn. by rewrite <- app_assoc.
  - intros e. rewrite (deliver_err _ _ _ _ _ Hp).
    eexists; split; [reflexivity|]. cbn.
    rewrite skipn_app, skipn_all, Nat.sub_diag. repeat split.
Qed.

Lemma login_outcomes_witness :
  let s := LoginComponent_onSubmit "alice" "secret" (boot ∅) in
  pending_lookup 0 (pending s)
  = Some (ApiService_login "alice" "secret" (boot ∅), Login_onSubmit_subscriber)
  ∧ (∃ s', deliver 0 (Ok (PLogin alice)) s = Some s'
        ∧ AuthService_getCurrentUser s' = Some alice
        ∧ trace s' = trace s ++ [UserEmitted (Some alice); Navigate "/admin";
                                 SnackBarOpen "Login successful!" "Close" 3000])
  ∧ (∃ s', deliver 0 (Ok (PLogin bob)) s = Some s'
        ∧ AuthService_getCurrentUser s' = Some bob
        ∧ trace s' = trace s ++ [UserEmitted (Some bob); Navigate "/user";
                                 SnackBarOpen "Login successful!" "Close" 3000])
  ∧ (∃ s', deliver 0 (Err server_down) s = Some s'
        ∧ AuthService_getCurrentUser s' = None
        ∧ localStorage s' = ∅).
Proof.
  cbn zeta.
  assert (Hp : pending_lookup 0 (pending (LoginComponent_onSubmit "alice" "secret" (boot ∅)))
               = Some (ApiService_login "alice" "secret" (boot ∅), Login_onSubmit_subscriber))
    by reflexivity.
  split; [exact Hp|].
  destruct (login_outcomes _ 0%nat _ Hp) as (Hok & Herr).
  split; [|split].
  - destruct (Hok alice) as (s' & Hd & Hc & _ & Ht). exists s'. repeat split; assumption.
  - destruct (Hok bob) as (s' & Hd & Hc & _ & Ht). exists s'. repeat split; assumption.
  - destruct (Herr server_down) as (s' & Hd & Hc & Hl & _). exists s'. repeat split; assumption.
Defined.

(** ** Failure messages *)

(** C7, as it holds: the checkout command shows the message of the
    server when the body of the failed response has one that is not
    empty, and the string 'Failed to place order. Please try again.'
    otherwise; the cart commands (add, update, remove, clear) and the
    login command show a message of their own whatever the response
    carries; a failed reload of the cart shows none. *)
Theorem failure_notifications (s : State) (id : nat) (req : HttpRequest) (k : Callback)
    (e : HttpErrorResponse.t) :
  pending_lookup id (pending s) = Some (req, k) →
  ∃ s', deliver id (Err e) s = Some s'
    ∧ notifications (trace s') = notifications (trace s) ++ failure_notification k e.
Proof.
  intros Hp. rewrite (deliver_err _ _ _ _ _ Hp).
  eexists; split; [reflexivity|].
  unfold notifications.
  destruct k as [|o|o|o|o| |]; try destruct o; cbn;
    rewrite ?flat_map_app; cbn; rewrite ?app_nil_r, <- ?app_assoc; try reflexivity.
  unfold checkout_errorMessage, server_message.
  destruct (HttpErrorResponse.error e) as [b|]; [|reflexivity].
  destruct (ErrorBody.error b) as [m|]; [|reflexivity].
  cbn. by destruct (truthy m).
Qed.

Lemma failure_notifications_witness :
  let s := CheckoutComponent_onSubmit true
             (set_checkout_cart (Server.derive "user1" scenario_store) (boot ∅)) in
  pending_lookup 0 (pending s) = Some (ApiService_checkout s, Checkout_onSubmit_subscriber)
  ∧ (∃ s', deliver 0 (Err stock_rejection) s = Some s'
        ∧ notifications (trace s') = ["Insufficient stock"])
  ∧ (∃ s', deliver 0 (Err server_down) s = Some s'
        ∧ notifications (trace s') = ["Failed to place order. Please try again."]).
Proof.
  cbn zeta.
  match goal with
  | |- pending_lookup 0 (pending ?s) = Some (?r, ?k) ∧ _ =>
      assert (Hp : pending_lookup 0 (pending s) = Some (r, k)) by reflexivity;
      split; [exact Hp|];
      split;
      [ destruct (failure_notifications s 0%nat r k stock_rejection Hp) as (s' & Hd & Hn)
      | destruct (failure_notifications s 0%nat r k server_down Hp) as (s' & Hd & Hn) ];
      exists s'; (split; [exact Hd | exact Hn])
  end.
Defined.

(** C7, as stated, fails: the server rejects an update of the cart with
    the message 'Insufficient stock', and the cart page shows 'Error
    updating cart'. *)
Lemma update_failure_hides_server_message :
  let s := CartComponent_updateQuantity scenario_itemA 3 (boot ∅) in
  server_message stock_rejection = Some "Insufficient stock"
  ∧ ∃ s', deliver 0 (Err stock_rejection) s = Some s'
      ∧ notifications (trace s') = ["Error updating cart"].
Proof. cbn zeta. split; [reflexivity|]. eexists; split; reflexivity. Qed.

(** ** Cart cache: published snapshots are consistent *)

Ltac quiet_command :=
  intros;
  match goal with
  | H : published_consistent _ |- _ => destruct H as (? & ? & ? & ?)
  end;
  unfold published_consistent; cbn; rewrite ?Forall_app;
  (split; [|split; [|split; [|repeat split]]]); try assumption; repeat constructor.

Lemma consistent_empty_cart : cart_consistent empty_cart.
Proof. split; reflexivity. Qed.

Lemma consistent_fresh storage : published_consistent (fresh storage).
Proof. repeat split; constructor. Qed.

Lemma consistent_currentUserSubject_next u s :
  published_consistent s → published_consistent (currentUserSubject_next u s).
Proof.
  intros (H1 & H2 & H3 & H4). unfold currentUserSubject_next. cbn zeta.
  set (a := emit _ _).
  destruct (user_notify_frame (user_subscribers a) u a) as (_ & _ & E1 & E2 & E3 & _ & _ & E4).
  cbn zeta in E1, E2, E3, E4.
  unfold published_consistent. rewrite E1, E2, E3, E4. subst a. cbn.
  rewrite Forall_app. (split; [|split; [|split; [|split]]]); try assumption.
  repeat constructor.
Qed.

Lemma consistent_boot storage : published_consistent (boot storage).
Proof.
  unfold boot, AuthService_constructor.
  destruct (localStorage (fresh storage) !! storage_key).
  - apply consistent_currentUserSubject_next, consistent_fresh.
  - apply consistent_fresh.
Qed.

Lemma consistent_cartSubject_next cart s :
  cart_consistent cart → published_consistent s → published_consistent (cartSubject_next cart s).
Proof.
  intros Hc (H1 & H2 & H3 & H4). unfold cartSubject_next. cbn zeta.
  set (a := emit _ _).
  destruct (cart_notify_frame cart (cart_subscribers a) a)
    as (E1 & _ & _ & _ & _ & E2 & E3 & evs & E4 & Hevs).
  cbn zeta in E1, E2, E3, E4.
  unfold published_consistent. rewrite E1, E4. subst a. cbn in *.
  rewrite !Forall_app. (split; [|split; [|split; [|repeat split]]]); try assumption.
  - destruct E2 as [-> | ->]; assumption.
  - destruct E3 as [-> | ->]; assumption.
  - constructor; [exact Hc | constructor].
  - eapply Forall_impl; [exact Hevs|]. intros [] He; cbn in *; try exact I; discriminate He.
Qed.

Lemma consistent_cart_subscribe sub s :
  published_consistent s → published_consistent (cart_subscribe sub s).
Proof.
  destruct sub; unfold cart_subscribe, cart_notify; [quiet_command | quiet_command |].
  intros (H1 & H2 & H3 & H4).
  destruct (length _ =? 0)%nat; unfold published_consistent; cbn; rewrite ?Forall_app;
    (split; [|split; [|split; [|repeat split]]]); try assumption; repeat constructor.
Qed.

Lemma consistent_user_subscribe sub s :
  published_consistent s → published_consistent (user_subscribe sub s).
Proof. destruct sub; unfold user_subscribe, user_notify; quiet_command. Qed.

Lemma consistent_loadCart s :
  published_consistent s → published_consistent (CartService_loadCart s).
Proof. unfold CartService_loadCart; quiet_command. Qed.

Lemma consistent_mutate m o s :
  published_consistent s → published_consistent (CartService_mutate m o s).
Proof. destruct m; quiet_command. Qed.

Lemma consistent_observer_next o p s :
  published_consistent s → published_consistent (observer_next o p s).
Proof. destruct o; quiet_command. Qed.

Lemma consistent_observer_error o e s :
  published_consistent s → published_consistent (observer_error o e s).
Proof. destruct o; quiet_command. Qed.

Lemma consistent_logout s :
  published_consistent s → published_consistent (AuthService_logout s).
Proof.
  intros H. unfold AuthService_logout, router_navigate. cbn zeta.
  assert (H' : published_consistent
                 (currentUserSubject_next None (set_localStorage (delete storage_key) s)))
    by (apply consistent_currentUserSubject_next; exact H).
  revert H'. generalize (currentUserSubject_next None (set_localStorage (delete storage_key) s)).
  quiet_command.
Qed.

Lemma consistent_login u s :
  published_consistent s → published_consistent (AuthService_login u s).
Proof.
  intros H. unfold AuthService_login, router_navigate. cbn zeta.
  assert (H' : published_consistent
                 (currentUserSubject_next (Some u) (set_localStorage (insert storage_key u) s)))
    by (apply consistent_currentUserSubject_next; exact H).
  revert H'.
  generalize (currentUserSubject_next (Some u) (set_localStorage (insert storage_key u) s)).
  destruct (User.role u); quiet_command.
Qed.

Lemma consistent_callback_next k p s s' :
  response_consistent (A_Response 0 (Ok p)) →
  published_consistent s → callback_next k p s = Some s' → published_consistent s'.
Proof.
  intros Hp H Hk.
  destruct k; cbn [callback_next] in Hk.
  - destruct p; try discriminate Hk. inversion Hk; subst.
    by apply consistent_cartSubject_next.
  - inversion Hk; subst.
    assert (H' := consistent_observer_next observer p _ (consistent_loadCart _ H)).
    revert H'. generalize (observer_next observer p (CartService_loadCart s)). quiet_command.
  - inversion Hk; subst.
    assert (H' := consistent_observer_next observer p _ (consistent_loadCart _ H)).
    revert H'. generalize (observer_next observer p (CartService_loadCart s)). quiet_command.
  - inversion Hk; subst.
    assert (H' := consistent_observer_next observer p _ (consistent_loadCart _ H)).
    revert H'. generalize (observer_next observer p (CartService_loadCart s)). quiet_command.
  - inversion Hk; subst.
    assert (H' := consistent_observer_next observer p _ (consistent_loadCart _ H)).
    revert H'. generalize (observer_next observer p (CartService_loadCart s)). quiet_command.
  - destruct p; try discriminate Hk. inversion Hk; subst.
    assert (H' : published_consistent (AuthService_login u (set_login_loading false s)))
      by (apply consistent_login; exact H).
    revert H'. generalize (AuthService_login u (set_login_loading false s)). quiet_command.
  - inversion Hk; subst. revert H. quiet_command.
Qed.

Lemma consistent_callback_error k e s :
  published_consistent s → published_consistent (callback_error k e s).
Proof.
  destruct k; cbn [callback_error]; try apply consistent_observer_error; quiet_command.
Qed.

Lemma consistent_deliver id r s s' :
  response_consistent (A_Response id r) →
  published_consistent s → deliver id r s = Some s' → published_consistent s'.
Proof.
  intros Hr H Hd. unfold deliver in Hd.
  destruct (pending_lookup id (pending s)) as [[req k]|]; [|discriminate Hd].
  assert (H1 : published_consistent
                 (set_pending (pending_remove id (pending s)) (next_request s) s)) by exact H.
  destruct r as [p|e].
  - eapply consistent_callback_next; [|exact H1|exact Hd]. exact Hr.
  - inversion Hd; subst. by apply consistent_callback_error.
Qed.

Lemma consistent_exec a s s' :
  response_consistent a →
  published_consistent s → exec a s = Some s' → published_consistent s'.
Proof.
  intros Ha H He. destruct a; cbn [exec] in He;
    try (inversion He; subst; clear He).
  - unfold UserLayoutComponent_ngOnInit.
    by apply consistent_loadCart, consistent_cart_subscribe, consistent_user_subscribe.
  - by apply consistent_logout.
  - unfold ProductListComponent_addToCart.
    destruct (_ <=? 0); [revert H; quiet_command|].
    by apply (consistent_mutate (Mut_addToCart _ _)).
  - by apply consistent_cart_subscribe.
  - unfold CartComponent_updateQuantity, CartComponent_removeItem.
    destruct (_ <? 1); [|destruct (_ >? _)]; revert H; quiet_command.
  - unfold CartComponent_removeItem. revert H; quiet_command.
  - unfold CartComponent_clearCart. destruct confirmed; revert H; quiet_command.
  - unfold CartComponent_proceedToCheckout.
    destruct (_ =? _)%nat; [|destruct (_ <? _)%nat]; revert H; quiet_command.
  - by apply consistent_cart_subscribe.
  - unfold CheckoutComponent_onSubmit.
    destruct (_ && _); revert H; quiet_command.
  - unfold LoginComponent_onSubmit.
    destruct (_ && _); revert H; quiet_command.
  - revert H; quiet_command.
  - eapply consistent_deliver; eassumption.
Qed.

(** C2: in every run of the client in which the carts the server answers
    with satisfy the derivation, every snapshot the cache publishes does
    too: the snapshot it holds (the initial one included), every
    snapshot it has emitted on [cart$], and the copies the cart and
    checkout pages hold have [item_count] equal to the sum of the
    quantities and [total_amount] equal to the sum of the subtotals. *)
Theorem published_snapshots_consistent (storage : gmap string User.t)
    (acts : list Action) (s : State) :
  Forall response_consistent acts →
  run acts (boot storage) = Some s →
  published_consistent s.
Proof.
  intros Hacts. generalize (consistent_boot storage). generalize (boot storage).
  induction Hacts as [|a acts Ha _ IH]; intros s0 H0 Hrun; cbn in Hrun.
  - by inversion Hrun; subst.
  - destruct (exec a s0) as [s1|] eqn:He; [|discriminate Hrun].
    eapply IH; [|exact Hrun]. eapply consistent_exec; eassumption.
Qed.

Lemma published_snapshots_consistent_witness :
  let cart := Server.derive "user1" scenario_store in
  let acts := [A_UserLayout_ngOnInit; A_Cart_ngOnInit; A_Response 0 (Ok (PCart cart))] in
  Forall response_consistent acts
  ∧ ∃ s, run acts (boot ∅) = Some s
      ∧ CartService_getCurrentCart s = cart
      ∧ published_consistent s.
Proof.
  cbn zeta.
  match goal with
  | |- Forall response_consistent ?acts ∧ _ =>
      assert (Hacts : Forall response_consistent acts)
        by (repeat constructor; vm_compute; reflexivity)
  end.
  split; [exact Hacts|].
  eexists. split; [vm_compute; reflexivity|]. split; [reflexivity|].
  eapply (published_snapshots_consistent ∅ _ _ Hacts). vm_compute; reflexivity.
Defined.

(** ** Cart page: a quantity below 1 is a removal *)

Lemma updateQuantity_below_one item q s :
  q < 1 → CartComponent_updateQuantity item q s = CartComponent_removeItem item s.
Proof.
  intros Hq. unfold CartComponent_updateQuantity.
  by destruct (Z.ltb_spec q 1) as [_|Hge]; [|lia].
Qed.

(** C4: the update command with a quantity below 1 is the removal
    command: it leaves the client in the same state, with the same
    [DELETE /cart/remove] in flight, so whatever the server then answers
    the two end in the same snapshot.  In the scenario of the spec
    (product A, 2 at 10, and product B, 1 at 5: total 25, 3 items)
    setting the quantity of A to 0 ends, like removing A, with a total
    of 5 and 1 item. *)
Theorem updateQuantity_zero_is_removal :
  (∀ item q s, q < 1 →
     CartComponent_updateQuantity item q s = CartComponent_removeItem item s
     ∧ ∀ fuel store,
         serve fuel store (CartComponent_updateQuantity item q s)
         = serve fuel store (CartComponent_removeItem item s))
  ∧ ∃ store loaded,
      scenario_loaded = Some (store, loaded)
      ∧ (Cart.total_amount (CartService_getCurrentCart loaded) == 25)%Q
      ∧ Cart.item_count (CartService_getCurrentCart loaded) = 3
      ∧ ∃ store' s',
          serve 4 store (CartComponent_updateQuantity scenario_itemA 0 loaded) = Some (store', s')
          ∧ serve 4 store (CartComponent_removeItem scenario_itemA loaded) = Some (store', s')
          ∧ pending s' = []
          ∧ map CartItem.product_name (Cart.items (CartService_getCurrentCart s')) = ["productB"]
          ∧ (Cart.total_amount (CartService_getCurrentCart s') == 5)%Q
          ∧ Cart.item_count (CartService_getCurrentCart s') = 1.
Proof.
  split.
  - intros item q s Hq. rewrite (updateQuantity_below_one item q s Hq). split; reflexivity.
  - eexists _, _. split; [vm_compute; reflexivity|].
    split; [reflexivity|]. split; [reflexivity|].
    eexists _, _. split; [vm_compute; reflexivity|].
    split; [vm_compute; reflexivity|].
    repeat split.
Qed.

Lemma updateQuantity_zero_is_removal_witness :
  0 < 1
  ∧ CartComponent_updateQuantity scenario_itemA 0 (boot ∅)
    = CartComponent_removeItem scenario_itemA (boot ∅)
  ∧ trace (CartComponent_updateQuantity scenario_itemA 0 (boot ∅))
    = [HttpSent 0 (ApiService_removeFromCart 1 (boot ∅))].
Proof.
  assert (H : 0 < 1) by lia.
  split; [exact H|].
  split.
  - exact (proj1 (proj1 updateQuantity_zero_is_removal scenario_itemA 0 (boot ∅) H)).
  - reflexivity.
Defined.

(** * Further properties *)

(** ** Session state: persistence *)

Lemma boot_currentUser storage :
  AuthService_getCurrentUser (boot storage) = storage !! storage_key.
Proof.
  unfold boot, AuthService_constructor. cbn [localStorage fresh].
  by destruct (storage !! storage_key).
Qed.

Lemma AuthService_logout_effect s :
  let s' := AuthService_logout s in
  AuthService_getCurrentUser s' = None
  ∧ localStorage s' = delete storage_key (localStorage s)
  ∧ pending s' = pending s
  ∧ trace s' = trace s ++ [UserEmitted None; Navigate "/login"].
Proof.
  unfold AuthService_logout, AuthService_getCurrentUser, currentUserSubject_next.
  cbn zeta.
  set (a := emit _ _).
  destruct (user_notify_frame (user_subscribers a) None a)
    as (H1 & H2 & _ & _ & _ & H3 & _ & H4).
  cbn zeta in H1, H2, H3, H4.
  set (s2 := fold_left _ _ _) in *. clearbody s2.
  cbn. rewrite H1, H2, H3, H4. subst a. cbn. rewrite <- app_assoc. repeat split.
Qed.

(** X1: the identity stored by a login is the identity the client
    starts with when the page is loaded again, and after a logout the
    client starts logged out. *)
Theorem identity_survives_restart (u : User.t) (s : State) :
  let restarted := boot (localStorage (AuthService_login u s)) in
  let after_logout := boot (localStorage (AuthService_logout (AuthService_login u s))) in
  AuthService_getCurrentUser restarted = Some u
  ∧ AuthService_isLoggedIn restarted = true
  ∧ AuthService_isAdmin restarted
    = match User.role u with RoleAdmin => true | RoleUser => false end
  ∧ AuthService_getCurrentUser after_logout = None
  ∧ AuthService_isLoggedIn after_logout = false.
Proof.
  cbn zeta.
  destruct (AuthService_login_effect u s) as (_ & Hl & _).
  destruct (AuthService_logout_effect (AuthService_login u s)) as (_ & Hl' & _).
  cbn zeta in Hl, Hl'.
  assert (H1 : AuthService_getCurrentUser (boot (localStorage (AuthService_login u s))) = Some u).
  { rewrite boot_currentUser, Hl. apply lookup_insert_eq. }
  assert (H2 : AuthService_getCurrentUser
                 (boot (localStorage (AuthService_logout (AuthService_login u s)))) = None).
  { rewrite boot_currentUser, Hl'. apply lookup_delete_eq. }
  unfold AuthService_isLoggedIn, AuthService_isAdmin, AuthService_getCurrentUser in *.
  rewrite H1, H2. repeat split.
Qed.

(** ** Views follow their subjects *)

Lemma cart_publish_views cart subs s :
  cartSubject s = cart →
  let s' := fold_left (fun acc sub => cart_notify sub cart acc) subs s in
  cart_subscribers s' = cart_subscribers s
  ∧ user_subscribers s' = user_subscribers s
  ∧ layout_currentUser s' = layout_currentUser s
  ∧ localStorage s' = localStorage s
  ∧ currentUserSubject s' = currentUserSubject s
  ∧ cartSubject s' = cart
  ∧ ∀ sub, sub ∈ subs ∨ cart_view_agrees sub s → cart_view_agrees sub s'.
Proof.
  revert s. induction subs as [|x subs IH]; intros s Hc; cbn.
  - repeat split; try assumption. intros sub [Hin|H]; [by apply elem_of_nil in Hin | exact H].
  - assert (Hx : cartSubject (cart_notify x cart s) = cart).
    { destruct x; cbn; try exact Hc. by destruct (length (Cart.items cart) =? 0)%nat. }
    destruct (IH (cart_notify x cart s) Hx) as (H1 & H2 & H3 & H4 & H5 & H6 & H7).
    cbn zeta in *. rewrite H1, H2, H3, H4, H5.
    assert (Hframe : cart_subscribers (cart_notify x cart s) = cart_subscribers s
                     ∧ user_subscribers (cart_notify x cart s) = user_subscribers s
                     ∧ layout_currentUser (cart_notify x cart s) = layout_currentUser s
                     ∧ localStorage (cart_notify x cart s) = localStorage s
                     ∧ currentUserSubject (cart_notify x cart s) = currentUserSubject s).
    { destruct x; cbn; try done. by destruct (length (Cart.items cart) =? 0)%nat. }
    destruct Hframe as (F1 & F2 & F3 & F4 & F5).
    split; [exact F1|]. split; [exact F2|]. split; [exact F3|]. split; [exact F4|].
    split; [exact F5|]. split; [exact H6|].
    intros sub Hsub. apply H7.
    destruct Hsub as [Hin|Hag].
    + apply elem_of_cons in Hin as [-> | Hin]; [right | by left].
      unfold cart_view_agrees, CartService_getCartItemCount, CartService_getCurrentCart.
      destruct x; cbn; try (by rewrite Hc).
      destruct (length (Cart.items cart) =? 0)%nat; cbn; by rewrite Hc.
    + right. revert Hag.
      unfold cart_view_agrees, CartService_getCartItemCount, CartService_getCurrentCart.
      destruct sub, x; cbn; try done; try (intros _; by rewrite Hc);
        destruct (length (Cart.items cart) =? 0)%nat; cbn; try done; intros _; by rewrite Hc.
Qed.

Lemma user_publish_views u subs s :
  currentUserSubject s = u →
  let s' := fold_left (fun acc sub => user_notify sub u acc) subs s in
  cart_subscribers s' = cart_subscribers s
  ∧ user_subscribers s' = user_subscribers s
  ∧ layout_cartItemCount s' = layout_cartItemCount s
  ∧ ∀ sub, sub ∈ subs ∨ user_view_agrees sub s → user_view_agrees sub s'.
Proof.
  revert s. induction subs as [|x subs IH]; intros s Hc; cbn.
  - repeat split. intros sub [Hin|H]; [by apply elem_of_nil in Hin | exact H].
  - assert (Hx : currentUserSubject (user_notify x u s) = u) by (destruct x; exact Hc).
    destruct (IH (user_notify x u s) Hx) as (H1 & H2 & H3 & H4).
    cbn zeta in *. rewrite H1, H2, H3.
    split; [by destruct x|]. split; [by destruct x|]. split; [by destruct x|].
    intros sub Hsub. apply H4. right.
    destruct sub, x. unfold user_view_agrees, AuthService_getCurrentUser. cbn. by rewrite Hc.
Qed.

Lemma coherent_cartSubject_next cart s :
  coherent s → coherent (cartSubject_next cart s).
Proof.
  intros (Hs & Hcv & Huv). unfold cartSubject_next. cbn zeta.
  set (a := emit _ _).
  destruct (cart_publish_views cart (cart_subscribers a) a eq_refl)
    as (H1 & H2 & H3 & H4 & H5 & H6 & H7).
  cbn zeta in *. set (s2 := fold_left _ _ _) in *. clearbody s2.
  split; [|split].
  - unfold session_persisted, AuthService_getCurrentUser. rewrite H4, H5. exact Hs.
  - rewrite H1. apply Forall_forall. intros sub Hin. apply H7. by left.
  - rewrite H2. eapply Forall_impl; [exact Huv|]. intros sub Hag.
    unfold user_view_agrees, AuthService_getCurrentUser in *. rewrite H3, H5. exact Hag.
Qed.

Lemma coherent_currentUserSubject_next u s :
  localStorage s !! storage_key = u →
  views_agree s → coherent (currentUserSubject_next u s).
Proof.
  intros Hs (Hcv & Huv). unfold currentUserSubject_next. cbn zeta.
  set (a := emit _ _).
  destruct (user_publish_views u (user_subscribers a) a eq_refl) as (H1 & H2 & H3 & H4).
  destruct (user_notify_frame (user_subscribers a) u a) as (F1 & F2 & F3 & F4 & F5 & _).
  cbn zeta in *. set (s2 := fold_left _ _ _) in *. clearbody s2.
  split; [|split].
  - unfold session_persisted, AuthService_getCurrentUser. rewrite F1, F2. exact Hs.
  - rewrite H1. eapply Forall_impl; [exact Hcv|]. intros sub Hag.
    unfold cart_view_agrees, CartService_getCartItemCount, CartService_getCurrentCart in *.
    rewrite H3, F3, F4, F5. exact Hag.
  - rewrite H2. apply Forall_forall. intros sub Hin. apply H4. by left.
Qed.

Lemma coherent_cart_subscribe sub s : coherent s → coherent (cart_subscribe sub s).
Proof.
  intros (Hs & Hcv & Huv). unfold cart_subscribe.
  set (a := set_cart_subscribers _ s).
  destruct (cart_publish_views (cartSubject s) [sub] a eq_refl)
    as (H1 & H2 & H3 & H4 & H5 & H6 & H7).
  cbn [fold_left] in *. cbn zeta in *.
  set (s2 := cart_notify _ _ _) in *. clearbody s2.
  split; [|split].
  - unfold session_persisted, AuthService_getCurrentUser. rewrite H4, H5. exact Hs.
  - rewrite H1. subst a. cbn. apply Forall_app. split.
    + eapply Forall_impl; [exact Hcv|]. intros x Hx. apply H7. by right.
    + constructor; [|constructor]. apply H7. left. by constructor.
  - rewrite H2. eapply Forall_impl; [exact Huv|]. intros x Hx.
    unfold user_view_agrees, AuthService_getCurrentUser in *. rewrite H3, H5. exact Hx.
Qed.

Lemma coherent_user_subscribe sub s : coherent s → coherent (user_subscribe sub s).
Proof.
  intros (Hs & Hcv & Huv). destruct sub. unfold user_subscribe, user_notify.
  split; [exact Hs|]. split; [exact Hcv|].
  cbn. apply Forall_app. split.
  - eapply Forall_impl; [exact Huv|]. by intros [] _.
  - by repeat constructor.
Qed.

Lemma coherent_login u s : coherent s → coherent (AuthService_login u s).
Proof.
  intros (_ & Hv). unfold AuthService_login. cbn zeta.
  assert (H : coherent (currentUserSubject_next (Some u)
                          (set_localStorage (insert storage_key u) s))).
  { apply coherent_currentUserSubject_next; [apply lookup_insert_eq | exact Hv]. }
  revert H. generalize (currentUserSubject_next (Some u) (set_localStorage (insert storage_key u) s)).
  intros s2 H. destruct (User.role u); exact H.
Qed.

Lemma coherent_logout s : coherent s → coherent (AuthService_logout s).
Proof.
  intros (_ & Hv). unfold AuthService_logout. cbn zeta.
  assert (H : coherent (currentUserSubject_next None (set_localStorage (delete storage_key) s))).
  { apply coherent_currentUserSubject_next; [apply lookup_delete_eq | exact Hv]. }
  exact H.
Qed.

Lemma coherent_boot storage : coherent (boot storage).
Proof.
  unfold boot, AuthService_constructor.
  destruct (localStorage (fresh storage) !! storage_key) as [u|] eqn:E.
  - apply coherent_currentUserSubject_next; [exact E|]. split; constructor.
  - split; [exact E|]. split; constructor.
Qed.

Lemma coherent_observer_next o p s : coherent s → coherent (observer_next o p s).
Proof. intros H. destruct o; exact H. Qed.

Lemma coherent_observer_error o e s : coherent s → coherent (observer_error o e s).
Proof. intros H. destruct o; exact H. Qed.

Lemma coherent_callback_next k p s s' :
  coherent s → callback_next k p s = Some s' → coherent s'.
Proof.
  intros H Hk. destruct k; cbn [callback_next] in Hk.
  - destruct p; try discriminate Hk. inversion Hk; subst. by apply coherent_cartSubject_next.
  - inversion Hk; subst.
    apply (coherent_observer_next observer p (CartService_loadCart s)). exact H.
  - inversion Hk; subst.
    apply (coherent_observer_next observer p (CartService_loadCart s)). exact H.
  - inversion Hk; subst.
    apply (coherent_observer_next observer p (CartService_loadCart s)). exact H.
  - inversion Hk; subst.
    apply (coherent_observer_next observer p (CartService_loadCart s)). exact H.
  - destruct p; try discriminate Hk. inversion Hk; subst.
    apply (coherent_login u (set_login_loading false s)). exact H.
  - inversion Hk; subst. exact H.
Qed.

Lemma coherent_exec a s s' : coherent s → exec a s = Some s' → coherent s'.
Proof.
  intros H He. destruct a; cbn [exec] in He; [inversion He; subst; clear He .. |].
  - unfold UserLayoutComponent_ngOnInit.
    apply (coherent_cart_subscribe UserLayout_cart_subscriber
             (user_subscribe UserLayout_user_subscriber s)).
    by apply coherent_user_subscribe.
  - by apply coherent_logout.
  - unfold ProductListComponent_addToCart. destruct (_ <=? 0); exact H.
  - by apply coherent_cart_subscribe.
  - unfold CartComponent_updateQuantity. destruct (_ <? 1); [|destruct (_ >? _)]; exact H.
  - exact H.
  - destruct confirmed; exact H.
  - unfold CartComponent_proceedToCheckout.
    destruct (_ =? _)%nat; [|destruct (_ <? _)%nat]; exact H.
  - by apply coherent_cart_subscribe.
  - unfold CheckoutComponent_onSubmit. destruct (_ && _); exact H.
  - unfold LoginComponent_onSubmit. destruct (_ && _); exact H.
  - exact H.
  - unfold deliver in He.
    destruct (pending_lookup id (pending s)) as [[req k]|]; [|discriminate He].
    destruct r as [p|e].
    + eapply coherent_callback_next; [|exact He]. exact H.
    + inversion He; subst.
      destruct k; cbn [callback_error]; try apply coherent_observer_error; exact H.
Qed.

Lemma coherent_run acts storage s :
  run acts (boot storage) = Some s → coherent s.
Proof.
  generalize (coherent_boot storage). generalize (boot storage).
  induction acts as [|a acts IH]; intros s0 H0 Hrun; cbn in Hrun.
  - by inversion Hrun; subst.
  - destruct (exec a s0) as [s1|] eqn:He; [|discriminate Hrun].
    eapply IH; [|exact Hrun]. eapply coherent_exec; eassumption.
Qed.

(** X2: in every run of the client the identity kept in the browser's
    storage is the identity of the session: the client is logged in
    exactly when an identity is stored. *)
Theorem session_matches_storage (storage : gmap string User.t) (acts : list Action) (s : State) :
  run acts (boot storage) = Some s →
  localStorage s !! storage_key = AuthService_getCurrentUser s
  ∧ (AuthService_isLoggedIn s = true ↔ is_Some (localStorage s !! storage_key)).
Proof.
  intros Hrun. destruct (coherent_run acts storage s Hrun) as (Hs & _).
  split; [exact Hs|]. rewrite Hs.
  unfold AuthService_isLoggedIn, AuthService_getCurrentUser.
  destruct (currentUserSubject s); split; intros H;
    try done; try (by eexists); by destruct H.
Qed.

Lemma session_matches_storage_witness :
  ∃ s, run (session_day ++ [A_UserLayout_logout]) (boot ∅) = Some s
    ∧ localStorage s !! storage_key = None
    ∧ AuthService_getCurrentUser s = None.
Proof.
  eexists. split; [vm_compute; reflexivity|].
  match goal with
  | |- _ ∧ AuthService_getCurrentUser ?s = None =>
      assert (Hrun : run (session_day ++ [A_UserLayout_logout]) (boot ∅) = Some s)
        by (vm_compute; reflexivity);
      destruct (session_matches_storage ∅ _ s Hrun) as (H & _)
  end.
  split; [|reflexivity]. rewrite H. reflexivity.
Defined.

(** X3: in every run of the client each subscribed view shows what its
    subject holds: the badge of the layout shows the item count of the
    snapshot, the cart and checkout pages hold the snapshot itself, and
    the layout holds the current identity. *)
Theorem subscribed_views_show_subject (storage : gmap string User.t) (acts : list Action)
    (s : State) :
  run acts (boot storage) = Some s →
  (UserLayout_cart_subscriber ∈ cart_subscribers s →
     layout_cartItemCount s = CartService_getCartItemCount s)
  ∧ (CartComponent_cart_subscriber ∈ cart_subscribers s →
     cart_cart s = CartService_getCurrentCart s)
  ∧ (Checkout_cart_subscriber ∈ cart_subscribers s →
     checkout_cart s = CartService_getCurrentCart s)
  ∧ (UserLayout_user_subscriber ∈ user_subscribers s →
     layout_currentUser s = AuthService_getCurrentUser s).
Proof.
  intros Hrun. destruct (coherent_run acts storage s Hrun) as (_ & Hcv & Huv).
  rewrite Forall_forall in Hcv. rewrite Forall_forall in Huv.
  repeat split; intros Hin.
  - exact (Hcv _ Hin).
  - exact (Hcv _ Hin).
  - exact (Hcv _ Hin).
  - exact (Huv _ Hin).
Qed.

Lemma subscribed_views_show_subject_witness :
  ∃ s, run session_day (boot ∅) = Some s
    ∧ UserLayout_cart_subscriber ∈ cart_subscribers s
    ∧ layout_cartItemCount s = 3
    ∧ CartComponent_cart_subscriber ∈ cart_subscribers s
    ∧ cart_cart s = CartService_getCurrentCart s
    ∧ UserLayout_user_subscriber ∈ user_subscribers s
    ∧ layout_currentUser s = Some bob.
Proof.
  eexists. split; [vm_compute; reflexivity|].
  match goal with
  | |- ?sub ∈ cart_subscribers ?s ∧ _ =>
      assert (Hrun : run session_day (boot ∅) = Some s) by (vm_compute; reflexivity);
      destruct (subscribed_views_show_subject ∅ _ s Hrun) as (H1 & H2 & _ & H4)
  end.
  assert (Hin1 : ∀ l : list CartSubscriber,
             l = [UserLayout_cart_subscriber; CartComponent_cart_subscriber] →
             UserLayout_cart_subscriber ∈ l ∧ CartComponent_cart_subscriber ∈ l).
  { intros l ->. split; repeat constructor. }
  destruct (Hin1 _ eq_refl) as (Ha & Hb).
  assert (Hc : UserLayout_user_subscriber ∈ [UserLayout_user_subscriber]) by constructor.
  split; [exact Ha|]. split; [rewrite (H1 Ha); reflexivity|].
  split; [exact Hb|]. split; [exact (H2 Hb)|].
  split; [exact Hc|]. rewrite (H4 Hc). reflexivity.
Defined.

(** ** Session state: requests after a login *)

(** X4: once the response to a login has arrived with an identity
    whose id is not empty, every operation on products, cart, orders and
    admin resources carries that identity's id and role, and the admin
    predicate is the identity's role. *)
Theorem after_login_requests_carry_user (s : State) (id : nat) (req : HttpRequest)
    (u : User.t) (c : ApiCall) :
  pending_lookup id (pending s) = Some (req, Login_onSubmit_subscriber) →
  truthy (User.id u) = true →
  is_auth_call c = false →
  ∃ s', deliver id (Ok (PLogin u)) s = Some s'
    ∧ header_get "X-User-ID" (headers (ApiService_request c s')) = Some (User.id u)
    ∧ header_get "X-User-Role" (headers (ApiService_request c s'))
      = Some (role_string (User.role u))
    ∧ AuthService_isAdmin s' = match User.role u with RoleAdmin => true | RoleUser => false end.
Proof.
  intros Hp Hid Hc. rewrite (deliver_ok _ _ _ _ _ Hp). cbn [callback_next].
  eexists; split; [reflexivity|].
  set (s1 := set_login_loading false _).
  destruct (AuthService_login_effect u s1) as (Hu & _).
  cbn zeta in Hu.
  rewrite !(resource_call_headers c) by exact Hc.
  rewrite getHeaders_id, getHeaders_role.
  unfold AuthService_isAdmin, AuthService_getCurrentUser in *.
  cbn [snackBar_open emit currentUserSubject]. rewrite Hu. cbn. rewrite Hid. repeat split.
Qed.

Lemma after_login_requests_carry_user_witness :
  let s := LoginComponent_onSubmit "bob" "secret" (boot ∅) in
  ∃ s', deliver 0 (Ok (PLogin bob)) s = Some s'
    ∧ header_get "X-User-ID" (headers (ApiService_request Call_getCart s')) = Some "7"
    ∧ header_get "X-User-Role" (headers (ApiService_request Call_getCart s')) = Some "user".
Proof.
  cbn zeta.
  assert (Hp : pending_lookup 0 (pending (LoginComponent_onSubmit "bob" "secret" (boot ∅)))
               = Some (ApiService_login "bob" "secret" (boot ∅), Login_onSubmit_subscriber))
    by reflexivity.
  destruct (after_login_requests_carry_user _ 0%nat _ bob Call_getCart Hp eq_refl eq_refl)
    as (s' & Hd & Hi & Hr & _).
  exists s'. repeat split; assumption.
Defined.

(** ** Cart cache: reloads race *)

Lemma pending_lookup_remove_ne i j l :
  i ≠ j → pending_lookup j (pending_remove i l) = pending_lookup j l.
Proof.
  intros Hne. induction l as [|[n rk] l IH]; cbn; [done|].
  destruct (Nat.eqb_spec n i) as [->|Hni].
  - destruct (Nat.eqb_spec i j); [done|reflexivity].
  - cbn. by rewrite IH.
Qed.

(** X5: when two reloads are in flight the snapshot ends as the cart of
    the response that arrives last, whichever request was sent first:
    the cache keeps no order among its reloads. *)
Theorem reload_last_response_wins (s : State) (i j : nat) (ri rj : HttpRequest)
    (ci cj : Cart.t) :
  i ≠ j →
  pending_lookup i (pending s) = Some (ri, CartService_loadCart_subscriber) →
  pending_lookup j (pending s) = Some (rj, CartService_loadCart_subscriber) →
  ∃ s1 s2,
    deliver i (Ok (PCart ci)) s = Some s1
    ∧ CartService_getCurrentCart s1 = ci
    ∧ deliver j (Ok (PCart cj)) s1 = Some s2
    ∧ CartService_getCurrentCart s2 = cj.
Proof.
  intros Hne Hi Hj.
  destruct (reload_response_publishes s i ri ci Hi) as (s1 & Hd1 & Hc1 & Hp1).
  assert (Hj1 : pending_lookup j (pending s1) = Some (rj, CartService_loadCart_subscriber)).
  { rewrite Hp1, pending_lookup_remove_ne by exact Hne. exact Hj. }
  destruct (reload_response_publishes s1 j rj cj Hj1) as (s2 & Hd2 & Hc2 & _).
  exists s1, s2. repeat split; assumption.
Qed.

Lemma reload_last_response_wins_witness :
  let s := CartService_loadCart (CartService_loadCart (boot ∅)) in
  let old := cart_of [scenario_itemA] in
  let new := cart_of [] in
  ∃ s1 s2,
    deliver 1 (Ok (PCart new)) s = Some s1
    ∧ deliver 0 (Ok (PCart old)) s1 = Some s2
    ∧ CartService_getCurrentCart s2 = old.
Proof.
  cbn zeta.
  assert (H1 : pending_lookup 1 (pending (CartService_loadCart (CartService_loadCart (boot ∅))))
               = Some (ApiService_getCart (boot ∅), CartService_loadCart_subscriber))
    by reflexivity.
  assert (H0 : pending_lookup 0 (pending (CartService_loadCart (CartService_loadCart (boot ∅))))
               = Some (ApiService_getCart (boot ∅), CartService_loadCart_subscriber))
    by reflexivity.
  assert (Hne : 1%nat ≠ 0%nat) by lia.
  destruct (reload_last_response_wins _ 1%nat 0%nat _ _ (cart_of []) (cart_of [scenario_itemA])
              Hne H1 H0) as (s1 & s2 & Hd1 & _ & Hd2 & Hc).
  exists s1, s2. repeat split; assumption.
Defined.

(** ** Cart page: the busy flags *)

(** X6: the flag the cart page raises for an item when it sends a
    removal or an update is lowered again when the response arrives, be
    it a success or a failure; the same holds of the loading flag of the
    clear command. *)
Theorem cart_flags_lowered (item : CartItem.t) (s : State) (r : HttpResult) :
  (∃ s', cart_updating (CartComponent_removeItem item s) !! CartItem.product_id item = Some true
      ∧ deliver (next_request s) r (CartComponent_removeItem item s) = Some s'
      ∧ cart_updating s' !! CartItem.product_id item = Some false)
  ∧ (∀ q, q < 1 ∨ q ≤ CartItem.available_stock item →
       ∃ s', cart_updating (CartComponent_updateQuantity item q s) !! CartItem.product_id item
             = Some true
         ∧ deliver (next_request s) r (CartComponent_updateQuantity item q s) = Some s'
         ∧ cart_updating s' !! CartItem.product_id item = Some false)
  ∧ (∃ s', cart_loading (CartComponent_clearCart true s) = true
      ∧ deliver (next_request s) r (CartComponent_clearCart true s) = Some s'
      ∧ cart_loading s' = false).
Proof.
  assert (Hrem : ∃ s',
             cart_updating (CartComponent_removeItem item s) !! CartItem.product_id item
             = Some true
             ∧ deliver (next_request s) r (CartComponent_removeItem item s) = Some s'
             ∧ cart_updating s' !! CartItem.product_id item = Some false).
  { unfold CartComponent_removeItem, deliver. cbn. rewrite Nat.eqb_refl.
    destruct r as [p|e]; cbn; eexists; (split; [apply lookup_insert_eq|]);
      (split; [reflexivity|]); cbn; apply lookup_insert_eq. }
  split; [exact Hrem|]. split.
  - intros q Hq. unfold CartComponent_updateQuantity.
    destruct (Z.ltb_spec q 1) as [Hlt|Hge]; [exact Hrem|].
    destruct (Z.gtb_spec q (CartItem.available_stock item)) as [Hgt|Hle]; [lia|].
    unfold deliver. cbn. rewrite Nat.eqb_refl.
    destruct r as [p|e]; cbn; eexists; (split; [apply lookup_insert_eq|]);
      (split; [reflexivity|]); cbn; apply lookup_insert_eq.
  - unfold CartComponent_clearCart, deliver. cbn. rewrite Nat.eqb_refl.
    destruct r as [p|e]; cbn; eexists; repeat split.
Qed.

Lemma cart_flags_lowered_witness :
  (3 < 1 ∨ 3 ≤ CartItem.available_stock scenario_itemA)
  ∧ ∃ s', deliver 0 (Err server_down) (CartComponent_updateQuantity scenario_itemA 3 (boot ∅))
          = Some s'
      ∧ cart_updating s' !! 1 = Some false.
Proof.
  assert (H : 3 < 1 ∨ 3 ≤ CartItem.available_stock scenario_itemA) by (right; cbn; lia).
  destruct (proj1 (proj2 (cart_flags_lowered scenario_itemA (boot ∅) (Err server_down))) 3 H)
    as (s' & _ & Hd & Hf).
  split; [exact H|]. exists s'. split; [exact Hd | exact Hf].
Defined.

(** ** Cart page: proceeding to checkout *)

Lemma filter_nil_Forall {A} (f : A → bool) (l : list A) :
  List.filter f l = [] ↔ Forall (fun x => f x = false) l.
Proof.
  induction l as [|x l IH]; cbn; [split; [constructor | done]|].
  destruct (f x) eqn:E; split; intros H.
  - discriminate H.
  - inversion H; subst. congruence.
  - constructor; [exact E | by apply IH].
  - inversion H; subst. by apply IH.
Qed.

(** X7: the cart page navigates to the checkout page exactly when its
    copy of the cart has at least one item and no item asks for more
    than the available stock; otherwise it shows a notification and
    stays; in every case it sends nothing. *)
Theorem proceedToCheckout_navigates_iff (s : State) :
  let s' := CartComponent_proceedToCheckout s in
  let ready :=
    Cart.items (cart_cart s) ≠ [] ∧ Forall within_stock (Cart.items (cart_cart s)) in
  (trace s' = trace s ++ [Navigate "/user/checkout"] ↔ ready)
  ∧ (¬ ready →
     ∃ message, trace s' = trace s ++ [SnackBarOpen message "Close" 3000])
  ∧ pending s' = pending s.
Proof.
  cbn zeta. unfold CartComponent_proceedToCheckout.
  assert (Hstock : List.filter
                     (fun item => CartItem.quantity item >? CartItem.available_stock item)
                     (Cart.items (cart_cart s)) = []
                   ↔ Forall within_stock (Cart.items (cart_cart s))).
  { rewrite filter_nil_Forall. apply Forall_iff. intros item. unfold within_stock.
    destruct (Z.gtb_spec (CartItem.quantity item) (CartItem.available_stock item));
      split; intros; (done || lia). }
  destruct (Cart.items (cart_cart s)) as [|item items] eqn:Eitems; cbn [length Nat.eqb].
  - cbn. split; [|split; [|reflexivity]].
    + split; [|by intros [? _]]. intros H. apply app_inv_head in H. discriminate H.
    + intros _. by eexists.
  - destruct (List.filter _ (item :: items)) as [|bad rest] eqn:Ef; cbn [length Nat.ltb Nat.leb].
    + cbn. split; [|split; [|reflexivity]].
      * split; [|done]. intros _. split; [done|]. by apply Hstock.
      * intros Hn. exfalso. apply Hn. split; [done|]. by apply Hstock.
    + cbn. split; [|split; [|reflexivity]].
      * split.
        -- intros H. apply app_inv_head in H. discriminate H.
        -- intros [_ H]. apply Hstock in H. discriminate H.
      * intros _. by eexists.
Qed.

Lemma proceedToCheckout_navigates_iff_witness :
  (let s := set_cart_cart (cart_of [scenario_itemA]) (boot ∅) in
   trace (CartComponent_proceedToCheckout s) = [Navigate "/user/checkout"])
  ∧ (let s := set_cart_cart (cart_of [oversold_item]) (boot ∅) in
     ¬ (Cart.items (cart_cart s) ≠ [] ∧ Forall within_stock (Cart.items (cart_cart s)))
     ∧ ∃ message, trace (CartComponent_proceedToCheckout s)
                  = [SnackBarOpen message "Close" 3000]).
Proof.
  split; cbn zeta.
  - assert (Hr : Cart.items (cart_cart (set_cart_cart (cart_of [scenario_itemA]) (boot ∅))) ≠ []
                 ∧ Forall within_stock
                     (Cart.items (cart_cart (set_cart_cart (cart_of [scenario_itemA]) (boot ∅))))).
    { split; [done|]. repeat constructor. unfold within_stock. cbn. lia. }
    exact (proj2 (proj1 (proceedToCheckout_navigates_iff
                           (set_cart_cart (cart_of [scenario_itemA]) (boot ∅)))) Hr).
  - assert (Hn : ¬ (Cart.items (cart_cart (set_cart_cart (cart_of [oversold_item]) (boot ∅))) ≠ []
                    ∧ Forall within_stock
                        (Cart.items (cart_cart (set_cart_cart (cart_of [oversold_item]) (boot ∅)))))).
    { intros [_ H]. cbn in H. inversion H as [|? ? Hw _]; subst.
      unfold within_stock in Hw. cbn in Hw. lia. }
    split; [exact Hn|].
    exact (proj1 (proj2 (proceedToCheckout_navigates_iff
                           (set_cart_cart (cart_of [oversold_item]) (boot ∅)))) Hn).
Defined.

(** ** Checkout page *)

(** X8: when the response to a checkout is a success the client shows
    'Order placed successfully!' and navigates to the order history,
    and that is all: no request is sent, so the cart is not reloaded,
    and the snapshot of the cache and the copies of the views still hold
    the cart that was bought. *)
Theorem checkout_success_keeps_cart (s : State) (id : nat) (req : HttpRequest) (p : Payload) :
  pending_lookup id (pending s) = Some (req, Checkout_onSubmit_subscriber) →
  ∃ s', deliver id (Ok p) s = Some s'
    ∧ trace s'
      = trace s ++ [SnackBarOpen "Order placed successfully!" "Close" 3000;
                    Navigate "/user/orders"]
    ∧ pending s' = pending_remove id (pending s)
    ∧ CartService_getCurrentCart s' = CartService_getCurrentCart s
    ∧ CartService_getCartItemCount s' = CartService_getCartItemCount s
    ∧ cart_cart s' = cart_cart s
    ∧ checkout_cart s' = checkout_cart s
    ∧ layout_cartItemCount s' = layout_cartItemCount s
    ∧ checkout_processing s' = false.
Proof.
  intros Hp. rewrite (deliver_ok _ _ _ _ _ Hp). cbn.
  eexists; split; [reflexivity|]. cbn. rewrite <- app_assoc. repeat split.
Qed.

Lemma checkout_success_keeps_cart_witness :
  let s := CheckoutComponent_onSubmit true
             (cartSubject_next (cart_of [scenario_itemA])
                (CheckoutComponent_ngOnInit (CartService_loadCart (boot ∅)))) in
  pending_lookup 1 (pending s) = Some (ApiService_checkout s, Checkout_onSubmit_subscriber)
  ∧ ∃ s', deliver 1 (Ok (PAny (JObj []))) s = Some s'
      ∧ Cart.items (CartService_getCurrentCart s') = [scenario_itemA]
      ∧ List.filter is_request (events_since (length (trace s)) s') = [].
Proof.
  cbn zeta.
  match goal with
  | |- pending_lookup 1 (pending ?s) = Some (?r, ?k) ∧ _ =>
      assert (Hp : pending_lookup 1 (pending s) = Some (r, k)) by reflexivity;
      split; [exact Hp|];
      destruct (checkout_success_keeps_cart s 1%nat r (PAny (JObj [])) Hp)
        as (s' & Hd & Ht & _ & Hc & _);
      exists s'; split; [exact Hd|]; split; [rewrite Hc; reflexivity|];
      unfold events_since; rewrite Ht, skipn_app, skipn_all, Nat.sub_diag; reflexivity
  end.
Defined.

Lemma cart_publish_trace cart subs s :
  trace (fold_left (fun acc sub => cart_notify sub cart acc) subs s)
  = trace s ++ flat_map (publish_effects cart) subs.
Proof.
  revert s. induction subs as [|x subs IH]; intros s; cbn.
  - by rewrite app_nil_r.
  - rewrite IH. destruct x; cbn; try reflexivity.
    destruct (length (Cart.items cart) =? 0)%nat; cbn; [|reflexivity].
    by rewrite <- !app_assoc.
Qed.

(** X9: publishing a cart adds to the trace the emission and, for each
    subscription of the checkout page, the redirect to the cart page
    with 'Your cart is empty' when the cart has no items, and nothing
    else; so the checkout page never stays open on an empty cart, and a
    cart with items moves nobody. *)
Theorem publish_redirects_checkout_on_empty (cart : Cart.t) (s : State) :
  trace (cartSubject_next cart s)
  = trace s ++ CartEmitted cart :: flat_map (publish_effects cart) (cart_subscribers s)
  ∧ (Cart.items cart = [] → Checkout_cart_subscriber ∈ cart_subscribers s →
     Navigate "/user/cart" ∈ events_since (length (trace s)) (cartSubject_next cart s)
     ∧ SnackBarOpen "Your cart is empty" "Close" 3000
       ∈ events_since (length (trace s)) (cartSubject_next cart s))
  ∧ (Cart.items cart ≠ [] →
     events_since (length (trace s)) (cartSubject_next cart s) = [CartEmitted cart]).
Proof.
  assert (Ht : trace (cartSubject_next cart s)
               = trace s ++ CartEmitted cart
                   :: flat_map (publish_effects cart) (cart_subscribers s)).
  { unfold cartSubject_next. cbn zeta. rewrite cart_publish_trace. cbn.
    by rewrite <- app_assoc. }
  split; [exact Ht|]. unfold events_since. rewrite Ht, skipn_app, skipn_all, Nat.sub_diag.
  cbn [skipn app]. split.
  - intros Hempty Hin.
    assert (Hsub : ∀ e, e ∈ publish_effects cart Checkout_cart_subscriber →
                        e ∈ CartEmitted cart
                            :: flat_map (publish_effects cart) (cart_subscribers s)).
    { intros e He. apply elem_of_cons. right. apply list_elem_of_In, in_flat_map.
      exists Checkout_cart_subscriber. split; by apply list_elem_of_In. }
    split; apply Hsub; cbn; rewrite Hempty; cbn; repeat constructor.
  - intros Hne. f_equal. clear Ht.
    induction (cart_subscribers s) as [|x subs IH]; cbn; [done|].
    rewrite IH, app_nil_r. destruct x; cbn; try done.
    destruct (Cart.items cart); [done|reflexivity].
Qed.

Lemma publish_redirects_checkout_on_empty_witness :
  let s := CheckoutComponent_ngOnInit
             (cartSubject_next (cart_of [scenario_itemA]) (boot ∅)) in
  Cart.items (cart_of []) = []
  ∧ Checkout_cart_subscriber ∈ cart_subscribers s
  ∧ Navigate "/user/cart" ∈ events_since (length (trace s)) (cartSubject_next (cart_of []) s).
Proof.
  cbn zeta.
  match goal with
  | |- _ ∧ ?sub ∈ cart_subscribers ?s ∧ _ =>
      assert (Hin : sub ∈ cart_subscribers s) by (cbn; repeat constructor);
      split; [reflexivity|]; split; [exact Hin|];
      exact (proj1 (proj1 (proj2 (publish_redirects_checkout_on_empty (cart_of []) s))
                      eq_refl Hin))
  end.
Defined.

(** ** Strings *)

Lemma lower_ascii_idem c : lower_ascii (lower_ascii c) = lower_ascii c.
Proof. destruct c as [[] [] [] [] [] [] [] []]; reflexivity. Qed.

Lemma ascii_toLowerCase_idem s :
  ascii_toLowerCase (ascii_toLowerCase s) = ascii_toLowerCase s.
Proof. induction s as [|c s IH]; cbn; [done|]. by rewrite lower_ascii_idem, IH. Qed.

Lemma prefix_refl s : String.prefix s s = true.
Proof.
  induction s as [|c s IH]; cbn; [done|].
  by destruct (Ascii.ascii_dec c c).
Qed.

Lemma includes_refl s : includes s s = true.
Proof. destruct s; cbn; [done|]. destruct (Ascii.ascii_dec a a); [|done]. by rewrite prefix_refl. Qed.

Lemma filter_sublist {A} (f : A → bool) (l : list A) : sublist (List.filter f l) l.
Proof.
  induction l as [|x l IH]; cbn; [constructor|].
  destruct (f x); by constructor.
Qed.

Lemma elem_of_List_filter {A} (f : A → bool) (l : list A) x :
  x ∈ List.filter f l ↔ x ∈ l ∧ f x = true.
Proof. rewrite !list_elem_of_In. apply filter_In. Qed.

(** ** Order status labels *)

Ltac status_cases s :=
  destruct (String.eqb_spec s "pending");
  [| destruct (String.eqb_spec s "confirmed");
     [| destruct (String.eqb_spec s "shipped");
        [| destruct (String.eqb_spec s "delivered");
           [| destruct (String.eqb_spec s "cancelled")]]]].

(** X10: the class of a status is one of the five status classes; two
    statuses have the same class exactly when they have the same icon;
    letter case does not matter (statuses that lower-case to the same
    string get the same class and icon, and so does a status and its
    lower-cased form, lower-casing twice being lower-casing once); and a
    status that is none of the five known ones is drawn as pending. *)
Theorem status_class_and_icon (toLowerCase : string → string) (a b : string) :
  getStatusClass toLowerCase a ∈ status_classes
  ∧ (getStatusClass toLowerCase a = getStatusClass toLowerCase b
     ↔ getStatusIcon toLowerCase a = getStatusIcon toLowerCase b)
  ∧ (toLowerCase a = toLowerCase b →
     getStatusClass toLowerCase a = getStatusClass toLowerCase b
     ∧ getStatusIcon toLowerCase a = getStatusIcon toLowerCase b)
  ∧ (toLowerCase (toLowerCase a) = toLowerCase a →
     getStatusClass toLowerCase (toLowerCase a) = getStatusClass toLowerCase a
     ∧ getStatusIcon toLowerCase (toLowerCase a) = getStatusIcon toLowerCase a)
  ∧ (toLowerCase a ∉ ["pending"; "confirmed"; "shipped"; "delivered"; "cancelled"] →
     getStatusClass toLowerCase a = "status-pending"
     ∧ getStatusIcon toLowerCase a = "hourglass_empty").
Proof.
  unfold getStatusClass, getStatusIcon, status_classes. cbn zeta.
  split; [|split; [|split; [|split]]].
  - status_cases (toLowerCase a); repeat constructor.
  - status_cases (toLowerCase a); status_cases (toLowerCase b);
      split; intros H; (reflexivity || discriminate H).
  - intros ->. split; reflexivity.
  - intros ->. split; reflexivity.
  - intros H.
    status_cases (toLowerCase a); try (split; reflexivity);
      exfalso; apply H;
      match goal with E : toLowerCase a = _ |- _ => rewrite E end; repeat constructor.
Qed.

Lemma status_class_and_icon_witness :
  (ascii_toLowerCase "Refunded" ∉ ["pending"; "confirmed"; "shipped"; "delivered"; "cancelled"])
  ∧ getStatusClass ascii_toLowerCase "Refunded" = "status-pending"
  ∧ getStatusIcon ascii_toLowerCase "Refunded" = "hourglass_empty"
  ∧ getStatusClass ascii_toLowerCase (ascii_toLowerCase "SHIPPED")
    = getStatusClass ascii_toLowerCase "SHIPPED"
  ∧ getStatusClass ascii_toLowerCase "Shipped" = getStatusClass ascii_toLowerCase "SHIPPED".
Proof.
  assert (H : ascii_toLowerCase "Refunded"
              ∉ ["pending"; "confirmed"; "shipped"; "delivered"; "cancelled"]).
  { cbn. intros Hin. repeat (apply elem_of_cons in Hin as [Hin|Hin]; [discriminate Hin|]).
    by apply elem_of_nil in Hin. }
  split; [exact H|].
  destruct (proj2 (proj2 (proj2 (proj2 (status_class_and_icon ascii_toLowerCase "Refunded" ""))))
              H) as (Hc & Hi).
  split; [exact Hc|]. split; [exact Hi|]. split.
  - exact (proj1 (proj1 (proj2 (proj2 (proj2
             (status_class_and_icon ascii_toLowerCase "SHIPPED" ""))))
             (ascii_toLowerCase_idem "SHIPPED"))).
  - exact (proj1 (proj1 (proj2 (proj2
             (status_class_and_icon ascii_toLowerCase "Shipped" "SHIPPED"))) eq_refl)).
Defined.

(** X11: the count of active orders of the order history grows by one
    with each order whose lower-cased status is pending, confirmed or
    shipped and by nothing with any other order, from 0 for no orders;
    so it never exceeds the number of orders, and an order whose status
    is none of the five known ones is drawn as pending without being
    counted. *)
Theorem active_orders_counted (toLowerCase : string → string) (v : OrderHistoryView.t)
    (order : Order.t) :
  let count := OrderHistoryView.getActiveOrdersCount toLowerCase in
  let with_order :=
    OrderHistoryView.mk (order :: OrderHistoryView.orders v) (OrderHistoryView.loading v)
      (OrderHistoryView.expandedOrder v) in
  count (OrderHistoryView.mk [] (OrderHistoryView.loading v) (OrderHistoryView.expandedOrder v))
  = 0%nat
  ∧ (toLowerCase (Order.status order) ∈ ["pending"; "confirmed"; "shipped"] →
     count with_order = S (count v))
  ∧ (toLowerCase (Order.status order) ∉ ["pending"; "confirmed"; "shipped"] →
     count with_order = count v)
  ∧ (count v ≤ length (OrderHistoryView.orders v))%nat
  ∧ (toLowerCase (Order.status order)
       ∉ ["pending"; "confirmed"; "shipped"; "delivered"; "cancelled"] →
     getStatusClass toLowerCase (Order.status order) = "status-pending"
     ∧ count with_order = count v).
Proof.
  cbn zeta. unfold OrderHistoryView.getActiveOrdersCount. cbn [OrderHistoryView.orders].
  assert (Hin : toLowerCase (Order.status order) ∈ ["pending"; "confirmed"; "shipped"] →
                length (List.filter (OrderHistoryView.is_active toLowerCase)
                          (order :: OrderHistoryView.orders v))
                = S (length (List.filter (OrderHistoryView.is_active toLowerCase)
                               (OrderHistoryView.orders v)))).
  { intros H. cbn [List.filter]. unfold OrderHistoryView.is_active at 1.
    rewrite bool_decide_eq_true_2 by exact H. reflexivity. }
  assert (Hout : toLowerCase (Order.status order) ∉ ["pending"; "confirmed"; "shipped"] →
                 length (List.filter (OrderHistoryView.is_active toLowerCase)
                           (order :: OrderHistoryView.orders v))
                 = length (List.filter (OrderHistoryView.is_active toLowerCase)
                             (OrderHistoryView.orders v))).
  { intros H. cbn [List.filter]. unfold OrderHistoryView.is_active at 1.
    rewrite bool_decide_eq_false_2 by exact H. reflexivity. }
  split; [reflexivity|]. split; [exact Hin|]. split; [exact Hout|].
  split; [apply List.filter_length_le|].
  intros H. split.
  - unfold getStatusClass. cbn zeta.
    status_cases (toLowerCase (Order.status order)); try reflexivity;
      exfalso; apply H;
      match goal with E : toLowerCase _ = _ |- _ => rewrite E end; repeat constructor.
  - apply Hout. intros Hthree. apply H.
    repeat (apply elem_of_cons in Hthree as [-> | Hthree]; [repeat constructor|]).
    by apply elem_of_nil in Hthree.
Qed.

Lemma active_orders_counted_witness :
  let v := OrderHistoryView.mk [order_with 2 "delivered"] false None in
  (ascii_toLowerCase (Order.status (order_with 1 "SHIPPED")) ∈ ["pending"; "confirmed"; "shipped"])
  ∧ OrderHistoryView.getActiveOrdersCount ascii_toLowerCase
      (OrderHistoryView.mk [order_with 1 "SHIPPED"; order_with 2 "delivered"] false None)
    = 1%nat
  ∧ (ascii_toLowerCase (Order.status (order_with 3 "Refunded"))
       ∉ ["pending"; "confirmed"; "shipped"; "delivered"; "cancelled"])
  ∧ getStatusClass ascii_toLowerCase "Refunded" = "status-pending"
  ∧ OrderHistoryView.getActiveOrdersCount ascii_toLowerCase
      (OrderHistoryView.mk [order_with 3 "Refunded"; order_with 2 "delivered"] false None)
    = 0%nat.
Proof.
  cbn zeta.
  assert (H1 : ascii_toLowerCase (Order.status (order_with 1 "SHIPPED"))
               ∈ ["pending"; "confirmed"; "shipped"]) by (cbn; repeat constructor).
  assert (H3 : ascii_toLowerCase (Order.status (order_with 3 "Refunded"))
               ∉ ["pending"; "confirmed"; "shipped"; "delivered"; "cancelled"]).
  { cbn. intros Hin. repeat (apply elem_of_cons in Hin as [Hin|Hin]; [discriminate Hin|]).
    by apply elem_of_nil in Hin. }
  split; [exact H1|]. split.
  - exact (proj1 (proj2 (active_orders_counted ascii_toLowerCase
                           (OrderHistoryView.mk [order_with 2 "delivered"] false None)
                           (order_with 1 "SHIPPED"))) H1).
  - split; [exact H3|].
    destruct (proj2 (proj2 (proj2 (proj2 (active_orders_counted ascii_toLowerCase
                (OrderHistoryView.mk [order_with 2 "delivered"] false None)
                (order_with 3 "Refunded"))))) H3) as (Hc & Hn).
    split; [exact Hc | exact Hn].
Defined.

(** ** Stock labels *)

Lemma cons_ne_self {A} (x : A) (l : list A) : x :: l ≠ l.
Proof. intros H. apply (f_equal length) in H. cbn in H. lia. Qed.

Lemma in_stock_text_ne s : s +:+ " in stock" ≠ "Out of Stock".
Proof.
  intros H.
  do 14 (destruct s as [|? s]; cbn in H; [discriminate H|]; try discriminate H).
Qed.

(** X12: the admin label of a stock level and the guard of add-to-cart
    draw the same line: the class is out-of-stock, and the text 'Out of
    Stock', exactly when the stock is at most 0, which is exactly when
    add-to-cart sends nothing; the class is low-stock from 1 to 9 and
    in-stock from 10 on. *)
Theorem stock_labels_match_guard (product : Product.t) (s : State) :
  let stock := Product.stock product in
  (getStockClass stock = "out-of-stock" ↔ stock ≤ 0)
  ∧ (getStockText stock = "Out of Stock" ↔ stock ≤ 0)
  ∧ (pending (ProductListComponent_addToCart product s) = pending s ↔ stock ≤ 0)
  ∧ (getStockClass stock = "low-stock" ↔ 1 ≤ stock ≤ 9)
  ∧ (getStockClass stock = "in-stock" ↔ 10 ≤ stock).
Proof.
  cbn zeta. unfold getStockClass, getStockText, ProductListComponent_addToCart.
  destruct (Z.leb_spec (Product.stock product) 0) as [Hle|Hgt].
  - split; [done|]. split; [done|]. split; [done|].
    split; split; intros H; (discriminate H || lia).
  - assert (Hsend : ∀ (x : nat * (HttpRequest * Callback)),
               x :: pending s = pending s ↔ Product.stock product ≤ 0).
    { intros x. split; intros H; [by apply cons_ne_self in H | lia]. }
    destruct (Z.ltb_spec (Product.stock product) 10) as [Hlt|Hge].
    + split; [split; intros H; (discriminate H || lia)|].
      split; [split; intros H; (discriminate H || lia)|].
      split; [apply Hsend|].
      split; split; intros H; (discriminate H || lia || done).
    + split; [split; intros H; (discriminate H || lia)|].
      split; [split; intros H; [by apply in_stock_text_ne in H | lia]|].
      split; [apply Hsend|].
      split; split; intros H; (discriminate H || lia || done).
Qed.

(** ** Product pages: categories *)

Lemma Set_from_fold (l acc : list string) :
  NoDup acc →
  let r := fold_left (fun acc x => if bool_decide (x ∈ acc) then acc else acc ++ [x]) l acc in
  NoDup r ∧ ∀ x, x ∈ r ↔ x ∈ acc ∨ x ∈ l.
Proof.
  revert acc. induction l as [|y l IH]; intros acc Hnd; cbn.
  - split; [exact Hnd|]. intros x. split; [by left|]. intros [H|H]; [done|].
    by apply elem_of_nil in H.
  - case_bool_decide as Hy.
    + destruct (IH acc Hnd) as (H1 & H2). split; [exact H1|].
      intros x. rewrite H2, elem_of_cons. split; [intros [?|?]; auto|].
      intros [?|[->|?]]; auto.
    + assert (Hnd' : NoDup (acc ++ [y])).
      { apply NoDup_app. split; [exact Hnd|]. split; [|apply NoDup_singleton].
        intros x Hx Hx'. apply list_elem_of_singleton in Hx'. by subst. }
      destruct (IH (acc ++ [y]) Hnd') as (H1 & H2). split; [exact H1|].
      intros x. rewrite H2, elem_of_app, list_elem_of_singleton, elem_of_cons. tauto.
Qed.

Lemma Set_from_spec (l : list string) :
  NoDup (Set_from l) ∧ ∀ x, x ∈ Set_from l ↔ x ∈ l.
Proof.
  destruct (Set_from_fold l [] NoDup_nil_2) as (H1 & H2). split; [exact H1|].
  intros x. unfold Set_from. rewrite H2. split; [intros [H|H]; [by apply elem_of_nil in H|done]|auto].
Qed.

(** X13: the categories a product page offers are pairwise distinct,
    never empty, and exactly the categories of the loaded products. *)
Theorem categories_distinct_and_complete (v : ProductsView.t) :
  let cats := ProductsView.categories (ProductsView.extractCategories v) in
  NoDup cats
  ∧ (∀ c, c ∈ cats ↔ c ≠ "" ∧ ∃ p, p ∈ ProductsView.products v ∧ Product.category p = c)
  ∧ ProductsView.products (ProductsView.extractCategories v) = ProductsView.products v
  ∧ ProductsView.filteredProducts (ProductsView.extractCategories v)
    = ProductsView.filteredProducts v.
Proof.
  cbn zeta. cbn [ProductsView.extractCategories ProductsView.categories
                 ProductsView.products ProductsView.filteredProducts].
  destruct (Set_from_spec (List.filter truthy (map Product.category (ProductsView.products v))))
    as (H1 & H2).
  split; [exact H1|]. split; [|done].
  intros c. rewrite H2, elem_of_List_filter, list_elem_of_fmap.
  split.
  - intros [(p & -> & Hp) Ht]. split; [|by exists p].
    intros E. rewrite E in Ht. discriminate Ht.
  - intros [Hne (p & Hp & <-)]. split; [by exists p|].
    destruct (Product.category p); [done|reflexivity].
Qed.

(** ** Product pages: filtering *)

Lemma filterProducts_elem toLowerCase (v : ProductsView.t) (p : Product.t) :
  p ∈ ProductsView.filteredProducts (ProductsView.filterProducts toLowerCase v)
  ↔ p ∈ ProductsView.products v
    ∧ (truthy (ProductsView.searchTerm v) = true →
       ProductsView.matches_search toLowerCase (ProductsView.searchTerm v) p = true)
    ∧ (truthy (ProductsView.selectedCategory v) = true →
       Product.category p = ProductsView.selectedCategory v).
Proof.
  unfold ProductsView.filterProducts. cbn.
  destruct (truthy (ProductsView.searchTerm v));
    destruct (truthy (ProductsView.selectedCategory v));
    rewrite ?elem_of_List_filter; unfold ProductsView.matches_category;
    rewrite ?String.eqb_eq; intuition congruence.
Qed.

Lemma filterProducts_sublist toLowerCase (v : ProductsView.t) :
  sublist (ProductsView.filteredProducts (ProductsView.filterProducts toLowerCase v))
    (ProductsView.products v).
Proof.
  unfold ProductsView.filterProducts. cbn.
  destruct (truthy (ProductsView.searchTerm v));
    destruct (truthy (ProductsView.selectedCategory v)); try done;
    repeat (etrans; [apply filter_sublist|]); done.
Qed.

(** X14: [filterProducts] shows, in the order of the loaded list, the
    loaded products that contain the lower-cased search term in their
    lower-cased name or description (when a term is set) and whose
    category is the selected one (exactly, when one is selected); it
    leaves the loaded list, the term and the category as they are, and
    filtering again changes nothing. *)
Theorem filterProducts_selects (toLowerCase : string → string) (v : ProductsView.t) :
  let v' := ProductsView.filterProducts toLowerCase v in
  sublist (ProductsView.filteredProducts v') (ProductsView.products v)
  ∧ (∀ p, p ∈ ProductsView.filteredProducts v'
          ↔ p ∈ ProductsView.products v
            ∧ (truthy (ProductsView.searchTerm v) = true →
               includes (toLowerCase (Product.name p))
                 (toLowerCase (ProductsView.searchTerm v))
               || includes (toLowerCase (Product.description p))
                    (toLowerCase (ProductsView.searchTerm v)) = true)
            ∧ (truthy (ProductsView.selectedCategory v) = true →
               Product.category p = ProductsView.selectedCategory v))
  ∧ ProductsView.products v' = ProductsView.products v
  ∧ ProductsView.searchTerm v' = ProductsView.searchTerm v
  ∧ ProductsView.selectedCategory v' = ProductsView.selectedCategory v
  ∧ ProductsView.filterProducts toLowerCase v' = v'.
Proof.
  cbn zeta. split; [apply filterProducts_sublist|].
  split; [intros p; apply filterProducts_elem|].
  repeat split.
Qed.

Lemma filterProducts_selects_witness :
  let v := ProductsView.type_search "tea" (ProductsView.loadProducts_next shelf ProductsView.init) in
  truthy (ProductsView.searchTerm v) = true
  ∧ ProductsView.filteredProducts (ProductsView.filterProducts ascii_toLowerCase v)
    = [teapot; novel]
  ∧ novel ∈ ProductsView.filteredProducts (ProductsView.filterProducts ascii_toLowerCase v).
Proof.
  cbn zeta. split; [reflexivity|]. split; [reflexivity|].
  apply (proj1 (proj2 (filterProducts_selects ascii_toLowerCase
                         (ProductsView.type_search "tea"
                            (ProductsView.loadProducts_next shelf ProductsView.init))))).
  split; [repeat constructor|]. split; [reflexivity | intros H; discriminate H].
Defined.

(** X15: searching for the name of a loaded product, in any letter
    case, with no category selected, shows that product. *)
Theorem search_by_name_finds (toLowerCase : string → string) (v : ProductsView.t)
    (p : Product.t) :
  p ∈ ProductsView.products v →
  ProductsView.selectedCategory v = "" →
  toLowerCase (ProductsView.searchTerm v) = toLowerCase (Product.name p) →
  p ∈ ProductsView.filteredProducts (ProductsView.onSearch toLowerCase v).
Proof.
  intros Hp Hc Hs. unfold ProductsView.onSearch. apply filterProducts_elem.
  split; [exact Hp|]. split.
  - intros _. unfold ProductsView.matches_search. by rewrite Hs, includes_refl.
  - rewrite Hc. intros H. discriminate H.
Qed.

Lemma search_by_name_finds_witness :
  let v := ProductsView.type_search "TEA POT"
             (ProductsView.loadProducts_next shelf ProductsView.init) in
  teapot ∈ ProductsView.products v
  ∧ ascii_toLowerCase (ProductsView.searchTerm v) = ascii_toLowerCase (Product.name teapot)
  ∧ teapot ∈ ProductsView.filteredProducts (ProductsView.onSearch ascii_toLowerCase v).
Proof.
  cbn zeta.
  assert (Hin : teapot ∈ ProductsView.products
                  (ProductsView.type_search "TEA POT"
                     (ProductsView.loadProducts_next shelf ProductsView.init)))
    by (cbn; repeat constructor).
  split; [exact Hin|]. split; [reflexivity|].
  exact (search_by_name_finds ascii_toLowerCase _ teapot Hin eq_refl eq_refl).
Defined.

(** X16: whatever happens to a product page (loads and their
    responses, typing, selecting, filtering, clearing, route
    parameters), the products it shows are loaded products in their
    loaded order, and the categories it offers are those of the loaded
    products. *)
Theorem products_page_invariant (toLowerCase : string → string) (ops : list ProductsView.op) :
  let v := ProductsView.steps toLowerCase ops ProductsView.init in
  sublist (ProductsView.filteredProducts v) (ProductsView.products v)
  ∧ ProductsView.categories v
    = Set_from (List.filter truthy (map Product.category (ProductsView.products v))).
Proof.
  cbn zeta. unfold ProductsView.steps.
  assert (H0 : sublist (ProductsView.filteredProducts ProductsView.init)
                 (ProductsView.products ProductsView.init)
               ∧ ProductsView.categories ProductsView.init
                 = Set_from (List.filter truthy
                               (map Product.category (ProductsView.products ProductsView.init))))
    by (split; [constructor | reflexivity]).
  revert H0. generalize ProductsView.init.
  induction ops as [|o ops IH]; intros v Hv; cbn [fold_left]; [exact Hv|].
  apply IH. destruct Hv as (H1 & H2).
  destruct o; cbn [ProductsView.step]; try (split; assumption).
  - split; [reflexivity|reflexivity].
  - split; [exact (filterProducts_sublist toLowerCase v) | exact H2].
  - split; [exact (filterProducts_sublist toLowerCase v) | exact H2].
  - split; [reflexivity | exact H2].
  - unfold ProductsView.queryParams_next. destruct (truthy_opt category); [|by split].
    split; [|exact H2].
    exact (filterProducts_sublist toLowerCase
             (ProductsView.mk (ProductsView.products v) (ProductsView.filteredProducts v)
                (ProductsView.loading v) (ProductsView.searchTerm v) (default "" category)
                (ProductsView.categories v))).
Qed.

(** X17: the response to a load replaces the shown products by the
    whole loaded list while the search term and the category stay set;
    so the category a product page takes from the route when it opens is
    not applied to the products that arrive afterwards, until the filter
    runs again. *)
Theorem load_response_shows_all (toLowerCase : string → string) (cat : string)
    (loaded : list Product.t) :
  truthy cat = true →
  let v := ProductsView.steps toLowerCase
             [ProductsView.Op_queryParams (Some cat);
              ProductsView.Op_loadProducts;
              ProductsView.Op_loadProducts_next loaded]
             ProductsView.init in
  ProductsView.selectedCategory v = cat
  ∧ ProductsView.filteredProducts v = loaded
  ∧ ProductsView.loading v = false
  ∧ ProductsView.filteredProducts (ProductsView.filterProducts toLowerCase v)
    = List.filter (fun p => String.eqb (Product.category p) cat) loaded.
Proof.
  intros Hc. cbn. unfold ProductsView.queryParams_next. cbn. rewrite Hc. cbn.
  rewrite Hc. repeat split.
Qed.

Lemma load_response_shows_all_witness :
  let v := ProductsView.steps ascii_toLowerCase
             [ProductsView.Op_queryParams (Some "Books");
              ProductsView.Op_loadProducts;
              ProductsView.Op_loadProducts_next shelf]
             ProductsView.init in
  truthy "Books" = true
  ∧ ProductsView.selectedCategory v = "Books"
  ∧ ProductsView.filteredProducts v = shelf
  ∧ ProductsView.filteredProducts (ProductsView.filterProducts ascii_toLowerCase v) = [novel].
Proof.
  cbn zeta. split; [reflexivity|].
  destruct (load_response_shows_all ascii_toLowerCase "Books" shelf eq_refl)
    as (H1 & H2 & _ & H4).
  split; [exact H1|]. split; [exact H2|]. rewrite H4. reflexivity.
Defined.

(** ** Admin orders page: filters *)

Lemma applyFilters_elem toLowerCase mdr (v : AdminOrdersView.t) (o : Order.t) :
  o ∈ AdminOrdersView.filteredOrders (AdminOrdersView.applyFilters toLowerCase mdr v)
  ↔ o ∈ AdminOrdersView.orders v
    ∧ AdminOrdersView.matchesSearch toLowerCase (AdminOrdersView.searchTerm v) o = true
    ∧ AdminOrdersView.matchesStatus toLowerCase (AdminOrdersView.selectedStatus v) o = true
    ∧ (negb (truthy (AdminOrdersView.selectedDateRange v))
       || mdr (Order.created_at o) (AdminOrdersView.selectedDateRange v)) = true.
Proof.
  cbn. rewrite elem_of_List_filter, !andb_true_iff. tauto.
Qed.

(** X18: the admin orders page shows, in their loaded order, exactly
    the loaded orders that pass the three filters: the search term
    (absent, or contained in the order's number, or, lower-cased, in a
    lower-cased item name), the status (absent, or equal to the order's
    status after lower-casing both) and the date range (absent, or
    accepted by [matchesDateRange]); so with a status selected that
    lower-cases to 'pending' the pending count is the number of orders
    shown; the pending count never exceeds the number shown; with no
    filter set every order is shown; and clearing the filters shows
    every order again. *)
Theorem applyFilters_selects (toLowerCase : string → string)
    (matchesDateRange : string → string → bool) (v : AdminOrdersView.t) :
  let v' := AdminOrdersView.applyFilters toLowerCase matchesDateRange v in
  sublist (AdminOrdersView.filteredOrders v') (AdminOrdersView.orders v)
  ∧ (∀ o, o ∈ AdminOrdersView.filteredOrders v'
          ↔ o ∈ AdminOrdersView.orders v
            ∧ (AdminOrdersView.searchTerm v = ""
               ∨ includes (show_Z (Order.id o)) (AdminOrdersView.searchTerm v) = true
               ∨ ∃ item, item ∈ Order.items o
                   ∧ includes (toLowerCase (OrderItem.product_name item))
                       (toLowerCase (AdminOrdersView.searchTerm v)) = true)
            ∧ (AdminOrdersView.selectedStatus v = ""
               ∨ toLowerCase (Order.status o) = toLowerCase (AdminOrdersView.selectedStatus v))
            ∧ (AdminOrdersView.selectedDateRange v = ""
               ∨ matchesDateRange (Order.created_at o) (AdminOrdersView.selectedDateRange v)
                 = true))
  ∧ (AdminOrdersView.selectedStatus v ≠ "" →
     toLowerCase (AdminOrdersView.selectedStatus v) = "pending" →
     AdminOrdersView.getPendingOrdersCount toLowerCase v'
     = length (AdminOrdersView.filteredOrders v'))
  ∧ (AdminOrdersView.getPendingOrdersCount toLowerCase v'
     ≤ length (AdminOrdersView.filteredOrders v'))%nat
  ∧ (AdminOrdersView.searchTerm v = "" → AdminOrdersView.selectedStatus v = "" →
     AdminOrdersView.selectedDateRange v = "" →
     AdminOrdersView.filteredOrders v' = AdminOrdersView.orders v)
  ∧ AdminOrdersView.filteredOrders (AdminOrdersView.clearFilters v') = AdminOrdersView.orders v.
Proof.
  cbn zeta.
  assert (Htruthy : ∀ x, negb (truthy x) = true ↔ x = "").
  { intros [|c x]; cbn; split; intros H; (done || discriminate H). }
  assert (Helem : ∀ o,
            o ∈ AdminOrdersView.filteredOrders
                  (AdminOrdersView.applyFilters toLowerCase matchesDateRange v)
            ↔ o ∈ AdminOrdersView.orders v
              ∧ (AdminOrdersView.searchTerm v = ""
                 ∨ includes (show_Z (Order.id o)) (AdminOrdersView.searchTerm v) = true
                 ∨ ∃ item, item ∈ Order.items o
                     ∧ includes (toLowerCase (OrderItem.product_name item))
                         (toLowerCase (AdminOrdersView.searchTerm v)) = true)
              ∧ (AdminOrdersView.selectedStatus v = ""
                 ∨ toLowerCase (Order.status o)
                   = toLowerCase (AdminOrdersView.selectedStatus v))
              ∧ (AdminOrdersView.selectedDateRange v = ""
                 ∨ matchesDateRange (Order.created_at o) (AdminOrdersView.selectedDateRange v)
                   = true)).
  { intros o. rewrite applyFilters_elem.
    unfold AdminOrdersView.matchesSearch, AdminOrdersView.matchesStatus.
    rewrite !orb_true_iff, !Htruthy, String.eqb_eq, existsb_exists.
    split.
    - intros (H1 & H2 & H3 & H4). split; [exact H1|]. split; [|split; assumption].
      destruct H2 as [[H2|H2]|(item & Hi & H2)]; [by left | by right; left |].
      right; right. exists item. split; [by apply list_elem_of_In | exact H2].
    - intros (H1 & H2 & H3 & H4). split; [exact H1|]. split; [|split; assumption].
      destruct H2 as [H2|[H2|(item & Hi & H2)]]; [by left; left | by left; right |].
      right. exists item. split; [by apply list_elem_of_In | exact H2]. }
  split; [apply filter_sublist|]. split; [exact Helem|]. split; [|split; [|split]].
  - intros Hne Hp. unfold AdminOrdersView.getPendingOrdersCount. f_equal.
    apply forallb_filter_id. apply forallb_forall. intros o Ho.
    apply list_elem_of_In, Helem in Ho as (_ & _ & [Hs|Hs] & _); [done|].
    rewrite Hs, Hp. reflexivity.
  - apply List.filter_length_le.
  - intros H1 H2 H3. cbn. rewrite H1, H2, H3. cbn.
    apply forallb_filter_id. by apply forallb_forall.
  - reflexivity.
Qed.

Lemma applyFilters_selects_witness :
  let v := AdminOrdersView.mk
             [order_with 1 "Pending"; order_with 2 "shipped"; order_with 3 "PENDING"]
             [] false "" "pending" "" in
  let v' := AdminOrdersView.applyFilters ascii_toLowerCase (fun _ _ => true) v in
  AdminOrdersView.selectedStatus v ≠ ""
  ∧ ascii_toLowerCase (AdminOrdersView.selectedStatus v) = "pending"
  ∧ map Order.id (AdminOrdersView.filteredOrders v') = [1; 3]
  ∧ AdminOrdersView.getPendingOrdersCount ascii_toLowerCase v' = 2%nat.
Proof.
  cbn zeta.
  assert (Hne : AdminOrdersView.selectedStatus
                  (AdminOrdersView.mk
                     [order_with 1 "Pending"; order_with 2 "shipped"; order_with 3 "PENDING"]
                     [] false "" "pending" "") ≠ "") by discriminate.
  split; [exact Hne|]. split; [reflexivity|]. split; [reflexivity|].
  rewrite (proj1 (proj2 (proj2 (applyFilters_selects ascii_toLowerCase (fun _ _ => true)
             (AdminOrdersView.mk
                [order_with 1 "Pending"; order_with 2 "shipped"; order_with 3 "PENDING"]
                [] false "" "pending" ""))))
             Hne eq_refl).
  reflexivity.
Defined.

(** ** Order history page: expanding an order *)

(** X19: after a toggle at most the toggled order is expanded: it is
    expanded unless it was the expanded one, in which case none is;
    toggling the same order again brings back a page on which that order
    or none was expanded; the orders are untouched. *)
Theorem toggleOrderDetails_expands_one (orderId : Z) (v : OrderHistoryView.t) :
  let v' := OrderHistoryView.toggleOrderDetails orderId v in
  (OrderHistoryView.expandedOrder v' = Some orderId
   ↔ OrderHistoryView.expandedOrder v ≠ Some orderId)
  ∧ (OrderHistoryView.expandedOrder v' = None
     ↔ OrderHistoryView.expandedOrder v = Some orderId)
  ∧ OrderHistoryView.orders v' = OrderHistoryView.orders v
  ∧ (OrderHistoryView.expandedOrder v = None
     ∨ OrderHistoryView.expandedOrder v = Some orderId →
     OrderHistoryView.toggleOrderDetails orderId v' = v).
Proof.
  cbn zeta. destruct v as [orders loading expanded].
  unfold OrderHistoryView.toggleOrderDetails. cbn.
  destruct expanded as [e|].
  - destruct (Z.eqb_spec e orderId) as [->|Hne]; cbn.
    + split; [split; [discriminate | congruence]|].
      split; [done|]. split; [done|]. intros _. reflexivity.
    + split; [split; [intros _; congruence | done]|].
      split; [split; [discriminate | congruence]|]. split; [done|].
      intros [H|H]; [discriminate H | congruence].
  - cbn. split; [done|]. split; [done|]. split; [done|]. intros _.
    rewrite Z.eqb_refl. reflexivity.
Qed.

Lemma toggleOrderDetails_expands_one_witness :
  let v := OrderHistoryView.mk [order_with 1 "pending"; order_with 2 "shipped"] false None in
  (OrderHistoryView.expandedOrder v = None ∨ OrderHistoryView.expandedOrder v = Some 2)
  ∧ OrderHistoryView.toggleOrderDetails 2 (OrderHistoryView.toggleOrderDetails 2 v) = v.
Proof.
  cbn zeta.
  assert (H : OrderHistoryView.expandedOrder
                (OrderHistoryView.mk [order_with 1 "pending"; order_with 2 "shipped"] false None)
              = None
              ∨ OrderHistoryView.expandedOrder
                  (OrderHistoryView.mk [order_with 1 "pending"; order_with 2 "shipped"] false None)
                = Some 2) by (left; reflexivity).
  split; [exact H|].
  exact (proj2 (proj2 (proj2 (toggleOrderDetails_expands_one 2 _))) H).
Defined.

(** ** Responses never cascade *)

Lemma publish_effects_quiet cart subs :
  List.filter is_request (flat_map (publish_effects cart) subs) = [].
Proof.
  induction subs as [|x subs IH]; cbn; [done|].
  rewrite List.filter_app, IH, app_nil_r.
  destruct x; cbn; try done. by destruct (length (Cart.items cart) =? 0)%nat.
Qed.

Lemma no_request_no_reload evs :
  List.filter is_request evs = [] → List.filter is_reload evs = [].
Proof.
  induction evs as [|e evs IH]; cbn; [done|].
  destruct e; cbn; try exact IH. discriminate.
Qed.

(** X20: whatever response arrives, its handlers send at most one
    request, and that request is a reload of the cart; a failed response
    sends nothing, so nothing is ever retried. *)
Theorem responses_send_at_most_a_reload (s s' : State) (id : nat) (r : HttpResult) :
  deliver id r s = Some s' →
  ∃ evs, trace s' = trace s ++ evs
    ∧ (length (List.filter is_request evs) ≤ 1)%nat
    ∧ List.filter is_request evs = List.filter is_reload evs
    ∧ (∀ e, r = Err e → List.filter is_request evs = []).
Proof.
  intros Hd. unfold deliver in Hd.
  destruct (pending_lookup id (pending s)) as [[req k]|]; [|discriminate Hd].
  set (s1 := set_pending _ _ s) in Hd.
  assert (Hs1 : trace s1 = trace s) by reflexivity.
  assert (Hmut : ∀ o p,
             ∃ evs, trace (observer_complete o (observer_next o p (CartService_loadCart s1)))
                    = trace s ++ evs
               ∧ (length (List.filter is_request evs) ≤ 1)%nat
               ∧ List.filter is_request evs = List.filter is_reload evs
               ∧ (∀ e, Ok p = Err e → List.filter is_request evs = [])).
  { intros o p.
    destruct (observer_next_trace o p (CartService_loadCart s1)) as (notif & Hn & Ht & _).
    eexists. split; [cbn; rewrite Ht; cbn; rewrite <- !app_assoc; reflexivity|].
    destruct notif; cbn in Hn; try discriminate Hn. cbn.
    split; [lia|]. split; [reflexivity|]. intros e He. discriminate He. }
  assert (Hfail : ∀ o e,
             ∃ evs, trace (observer_error o e s1) = trace s ++ evs
               ∧ (length (List.filter is_request evs) ≤ 1)%nat
               ∧ List.filter is_request evs = List.filter is_reload evs
               ∧ (∀ e', Err e = Err e' → List.filter is_request evs = [])).
  { intros o e. destruct (observer_error_trace o e s1) as (evs & Hf & Ht & _).
    exists (ObserverError o e :: evs). split; [exact Ht|]. cbn.
    rewrite Hf, (no_request_no_reload _ Hf). cbn. split; [lia|]. split; done. }
  destruct r as [p|e].
  - destruct k; cbn [callback_next] in Hd.
    + destruct p; try discriminate Hd. inversion Hd; subst s'.
      unfold cartSubject_next. cbn zeta. rewrite cart_publish_trace. cbn.
      eexists. split; [rewrite <- app_assoc; reflexivity|]. cbn.
      rewrite publish_effects_quiet, (no_request_no_reload _ (publish_effects_quiet _ _)).
      cbn. split; [lia|]. split; [done|]. intros e He. discriminate He.
    + inversion Hd; subst s'. apply Hmut.
    + inversion Hd; subst s'. apply Hmut.
    + inversion Hd; subst s'. apply Hmut.
    + inversion Hd; subst s'. apply Hmut.
    + destruct p; try discriminate Hd. inversion Hd; subst s'.
      destruct (AuthService_login_effect u (set_login_loading false s1)) as (_ & _ & _ & Ht).
      cbn zeta in Ht. cbn [snackBar_open emit trace]. rewrite Ht.
      eexists. split; [cbn; rewrite <- app_assoc; reflexivity|]. cbn.
      split; [lia|]. split; [done|]. intros e He. discriminate He.
    + inversion Hd; subst s'. cbn.
      eexists. split; [rewrite <- app_assoc; reflexivity|]. cbn.
      split; [lia|]. split; [done|]. intros e He. discriminate He.
  - inversion Hd; subst s'. destruct k; cbn [callback_error]; try apply Hfail.
    + eexists. split; [reflexivity|]. cbn. split; [lia|]. done.
    + eexists. split; [reflexivity|]. cbn. split; [lia|]. done.
    + eexists. split; [cbn; rewrite <- app_assoc; reflexivity|]. cbn. split; [lia|]. done.
Qed.

Lemma responses_send_at_most_a_reload_witness :
  let s := CartComponent_removeItem scenario_itemA (boot ∅) in
  ∃ s' evs,
    deliver 0 (Ok (PAny (JObj []))) s = Some s'
    ∧ trace s' = trace s ++ evs
    ∧ List.filter is_request evs = List.filter is_reload evs.
Proof.
  cbn zeta.
  assert (Hd : ∃ s', deliver 0 (Ok (PAny (JObj [])))
                       (CartComponent_removeItem scenario_itemA (boot ∅)) = Some s')
    by (eexists; reflexivity).
  destruct Hd as (s' & Hd).
  destruct (responses_send_at_most_a_reload _ s' 0%nat _ Hd) as (evs & Ht & _ & Hr & _).
  exists s', evs. repeat split; assumption.
Defined.

(** ** Forms: what reaches the server *)

(** X21: the login form sends its request exactly when both fields are
    filled, and then sends the credentials as typed to the login
    endpoint without identity headers; whatever the response, the
    loading flag is lowered when it arrives. *)
Theorem login_form_guard (username password : string) (s : State) (r : HttpResult) :
  let s1 := LoginComponent_onSubmit username password s in
  (pending s1 = pending s ↔ username = "" ∨ password = "")
  ∧ (username ≠ "" → password ≠ "" →
     pending s1
       = (next_request s,
          (mkRequest POST (baseUrl +:+ "/auth/login") []
             (Some (JObj [("username", JStr username); ("password", JStr password)])),
           Login_onSubmit_subscriber)) :: pending s
     ∧ login_loading s1 = true
     ∧ ∀ s', deliver (next_request s) r s1 = Some s' → login_loading s' = false).
Proof.
  cbn zeta. unfold LoginComponent_onSubmit.
  destruct username as [|c u]; [|destruct password as [|c' p]]; cbn [truthy andb].
  - split; [split; [by left|done]|]. by intros H.
  - split; [split; [by right|done]|]. by intros _ H.
  - split.
    + split; [intros H; by apply cons_ne_self in H | intros [H|H]; discriminate H].
    + intros _ _. split; [reflexivity|]. split; [reflexivity|].
      intros s'. unfold deliver. cbn. rewrite Nat.eqb_refl.
      destruct r as [[| |]|e]; cbn; intros Hd; try discriminate Hd; inversion Hd; subst s'.
      * cbn.
        match goal with
        | |- login_loading (AuthService_login ?u ?a) = false =>
            unfold AuthService_login, currentUserSubject_next; cbn zeta
        end.
        match goal with
        | |- context [fold_left ?f ?l ?a] =>
            assert (Hf : ∀ subs b, login_loading (fold_left f subs b) = login_loading b)
        end.
        { induction subs as [|x subs IH]; intros b; cbn; [done|]. rewrite IH. by destruct x. }
        destruct (User.role u0); cbn; rewrite Hf; reflexivity.
      * reflexivity.
Qed.

Lemma login_form_guard_witness :
  "bob" ≠ "" ∧ "secret" ≠ ""
  ∧ login_loading (LoginComponent_onSubmit "bob" "secret" (boot ∅)) = true
  ∧ ∀ s', deliver 0 (Err server_down) (LoginComponent_onSubmit "bob" "secret" (boot ∅)) = Some s' →
          login_loading s' = false.
Proof.
  assert (H1 : "bob" ≠ "") by discriminate.
  assert (H2 : "secret" ≠ "") by discriminate.
  destruct (proj2 (login_form_guard "bob" "secret" (boot ∅) (Err server_down)) H1 H2)
    as (_ & Hl & Hd).
  split; [exact H1|]. split; [exact H2|]. split; [exact Hl | exact Hd].
Defined.

(** X22: the checkout page sends its request exactly when the form is
    valid and its copy of the cart has an item; the request is one
    [POST /orders/checkout] with an empty object and the identity
    headers; whatever the response, the processing flag is lowered when
    it arrives. *)
Theorem checkout_form_guard (valid : bool) (s : State) (r : HttpResult) :
  let s1 := CheckoutComponent_onSubmit valid s in
  (pending s1 = pending s ↔ valid = false ∨ Cart.items (checkout_cart s) = [])
  ∧ (valid = true → Cart.items (checkout_cart s) ≠ [] →
     pending s1
       = (next_request s,
          (mkRequest POST (baseUrl +:+ "/orders/checkout") (ApiService_getHeaders s)
             (Some (JObj [])),
           Checkout_onSubmit_subscriber)) :: pending s
     ∧ checkout_processing s1 = true
     ∧ ∃ s', deliver (next_request s) r s1 = Some s' ∧ checkout_processing s' = false).
Proof.
  cbn zeta. unfold CheckoutComponent_onSubmit.
  destruct valid; [destruct (Cart.items (checkout_cart s)) as [|item items] eqn:E|];
    cbn [andb length Nat.ltb Nat.leb].
  - split; [split; [by right|done]|]. by intros _ H.
  - split.
    + split; [intros H; by apply cons_ne_self in H | intros [H|H]; discriminate H].
    + intros _ _. split; [reflexivity|]. split; [reflexivity|].
      unfold deliver. cbn. rewrite Nat.eqb_refl.
      destruct r as [p|e]; cbn; eexists; split; reflexivity.
  - split; [split; [by left|done]|]. intros H. discriminate H.
Qed.

Lemma checkout_form_guard_witness :
  let s := set_checkout_cart (cart_of [scenario_itemA]) (boot ∅) in
  true = true ∧ Cart.items (checkout_cart s) ≠ []
  ∧ checkout_processing (CheckoutComponent_onSubmit true s) = true
  ∧ ∃ s', deliver 0 (Err stock_rejection) (CheckoutComponent_onSubmit true s) = Some s'
      ∧ checkout_processing s' = false.
Proof.
  cbn zeta.
  assert (H : Cart.items (checkout_cart (set_checkout_cart (cart_of [scenario_itemA]) (boot ∅)))
              ≠ []) by discriminate.
  destruct (proj2 (checkout_form_guard true
                     (set_checkout_cart (cart_of [scenario_itemA]) (boot ∅))
                     (Err stock_rejection)) eq_refl H) as (_ & Hp & Hd).
  split; [reflexivity|]. split; [exact H|]. split; [exact Hp | exact Hd].
Defined.

(** ** Cart cache: one reload request after a successful mutation *)





(** On ASCII text a status and its lower-cased form are drawn alike. *)
Lemma ascii_status_case_insensitive (a : string) :
  getStatusClass ascii_toLowerCase (ascii_toLowerCase a) = getStatusClass ascii_toLowerCase a
  ∧ getStatusIcon ascii_toLowerCase (ascii_toLowerCase a) = getStatusIcon ascii_toLowerCase a.
Proof.
  unfold getStatusClass, getStatusIcon. cbn zeta.
  rewrite ascii_toLowerCase_idem. split; reflexivity.
Qed.
